(** * Field normalization and query degradation of the custom-API adapters

    A shallow embedding of the normalizers and query degraders of the
    issue client (class [JiraClient]) and of the page client (class
    [ConfluenceClient], [mcp-confluence-server/src/confluence-client.ts]),
    with the JavaScript semantics they rely on:
    truthiness and [||], property reads that throw on [null] and
    [undefined], [typeof], template literals, and the regular expressions
    of the two query degraders. *)

From Stdlib Require Import ZArith List Ascii String Bool Lia.
From stdpp Require Import base option strings pretty gmap.

Import ListNotations.
Set Warnings "-register-all".
Local Open Scope string_scope.
Local Open Scope Z_scope.

(** ** JavaScript values

    Strings are sequences of code units; the embedding covers the code
    units below 256, one [ascii] each.  Numbers are the integer-valued
    ones: the embedded code copies numbers, tests them for truthiness,
    prints them in one template literal and compares one with [0].
    [JNative] is a built-in function object; the only one the embedded
    code can read is [String.prototype.link] (through [x.link] on a
    string [x]). *)

Inductive JsVal : Type :=
| JUndefined
| JNull
| JBool (b : bool)
| JNum (n : Z)
| JStr (s : string)
| JArr (items : list JsVal)
| JObj (props : list (string * JsVal))
| JNative (name : string).

(** Errors are the classes the code raises or provokes, with their
    [message]; the messages of the engine's own errors are worded as V8
    words them. *)
Inductive JsError : Type :=
| TypeError (message : string)
| RangeError (message : string)
| Error (message : string).

Definition message (e : JsError) : string :=
  match e with TypeError m | RangeError m | Error m => m end.

(** A completion: the value of an expression, or the exception thrown. *)
Inductive Completion (A : Type) : Type :=
| Normal (a : A)
| Throw (e : JsError).
Arguments Normal {A} a.
Arguments Throw {A} e.

Definition bind {A B} (c : Completion A) (f : A -> Completion B) : Completion B :=
  match c with
  | Normal a => f a
  | Throw e => Throw e
  end.

Notation "x <- c ;; k" := (bind c (fun x => k))
  (at level 100, c at next level, right associativity).

(** [try { body } catch (error) { throw new Error(prefix + error.message) }] *)
Definition rethrow {A} (prefix : string) (body : Completion A) : Completion A :=
  match body with
  | Normal a => Normal a
  | Throw e => Throw (Error (prefix +:+ message e))
  end.

(** ToBoolean. *)
Definition truthy (v : JsVal) : bool :=
  match v with
  | JUndefined | JNull => false
  | JBool b => b
  | JNum n => negb (n =? 0)
  | JStr s => negb (String.eqb s "")
  | JArr _ | JObj _ | JNative _ => true
  end.

(** [typeof v === 'object'] *)
Definition typeof_object (v : JsVal) : bool :=
  match v with
  | JNull | JArr _ | JObj _ => true
  | _ => false
  end.

(** Own property of an object decoded from JSON; the list holds each
    property once. *)
Fixpoint lookup_prop (k : string) (props : list (string * JsVal)) : JsVal :=
  match props with
  | [] => JUndefined
  | (k', v) :: rest => if String.eqb k k' then v else lookup_prop k rest
  end.

Definition describe (v : JsVal) : string :=
  match v with JNull => "null" | _ => "undefined" end.

(** [base.k], for the property names [k] that the embedded code reads.
    It throws on [null] and [undefined] and reads the own property of an
    object (none of the names is a member of [Object.prototype]).  On the
    other values the names that exist are [length] of an array and of a
    string, [link] of a string, and [length] and [name] of a built-in
    function. *)
Definition get (base : JsVal) (k : string) : Completion JsVal :=
  match base with
  | JUndefined | JNull =>
      Throw (TypeError ("Cannot read properties of " +:+ describe base
                        +:+ " (reading '" +:+ k +:+ "')"))
  | JObj props => Normal (lookup_prop k props)
  | JArr items =>
      Normal (if String.eqb k "length" then JNum (Z.of_nat (List.length items))
              else JUndefined)
  | JStr s =>
      Normal (if String.eqb k "length" then JNum (Z.of_nat (String.length s))
              else if String.eqb k "link" then JNative "link"
              else JUndefined)
  | JNative name =>
      Normal (if String.eqb k "length" then JNum 1
              else if String.eqb k "name" then JStr name
              else JUndefined)
  | JBool _ | JNum _ => Normal JUndefined
  end.

(** A value used as an expression. *)
Definition val (v : JsVal) : Completion JsVal := Normal v.
Coercion val : JsVal >-> Completion.

(** [e.k] *)
Definition dot (e : Completion JsVal) (k : string) : Completion JsVal :=
  v <- e ;; get v k.

(** [e?.k] *)
Definition dot_opt (e : Completion JsVal) (k : string) : Completion JsVal :=
  v <- e ;;
  match v with
  | JUndefined | JNull => Normal JUndefined
  | _ => get v k
  end.

(** [a || b]: [b] is evaluated only when [a] is falsy. *)
Definition or_else (a b : Completion JsVal) : Completion JsVal :=
  v <- a ;; if truthy v then Normal v else b.

(** [c ? a : b] *)
Definition cond (c a b : Completion JsVal) : Completion JsVal :=
  v <- c ;; if truthy v then a else b.

Notation "e .[ k ]" := (dot e k) (at level 1, format "e .[ k ]").
Notation "e ?.[ k ]" := (dot_opt e k) (at level 1, format "e ?.[ k ]").
Infix "<||>" := or_else (at level 45, right associativity).

(** An object literal: the property values are evaluated in order. *)
Fixpoint properties (fields : list (string * Completion JsVal))
  : Completion (list (string * JsVal)) :=
  match fields with
  | [] => Normal []
  | (k, c) :: rest =>
      v <- c ;; props <- properties rest ;; Normal ((k, v) :: props)
  end.

Definition object (fields : list (string * Completion JsVal)) : Completion JsVal :=
  props <- properties fields ;; Normal (JObj props).

(** Whether an object has the own property [k]. *)
Definition has_own (k : string) (props : list (string * JsVal)) : bool :=
  existsb (fun p => String.eqb k (fst p)) props.

(** ToString, as a template literal applies it.  A decoded object prints
    as ["[object Object]"] through the inherited [toString]; an own
    [toString] property hides that method, and the conversion then throws
    (the only callable value, [link], calls ToString on the object again).
    An array prints its elements joined by commas, [null] and [undefined]
    as the empty string.  Integers print in decimal, which is what
    JavaScript prints below 10^21. *)
Fixpoint toString (v : JsVal) : Completion string :=
  match v with
  | JUndefined => Normal "undefined"
  | JNull => Normal "null"
  | JBool b => Normal (if b then "true" else "false")
  | JNum n => Normal (pretty n)
  | JStr s => Normal s
  | JArr items =>
      (fix join (l : list JsVal) : Completion string :=
         match l with
         | [] => Normal ""
         | x :: tl =>
             s <- match x with
                  | JUndefined | JNull => Normal ""
                  | _ => toString x
                  end ;;
             match tl with
             | [] => Normal s
             | _ => t <- join tl ;; Normal (s +:+ "," +:+ t)
             end
         end) items
  | JObj props =>
      match lookup_prop "toString" props with
      | JNative _ => Throw (RangeError "Maximum call stack size exceeded")
      | _ =>
          if has_own "toString" props
          then Throw (TypeError "Cannot convert object to primitive value")
          else Normal "[object Object]"
      end
  | JNative name => Normal ("function " +:+ name +:+ "() { [native code] }")
  end.

(** A template literal [`prefix${e}`]. *)
Definition template (prefix : string) (e : Completion JsVal) : Completion JsVal :=
  v <- e ;; s <- toString v ;; Normal (JStr (prefix +:+ s)).

(** [typeof e === 'object'] as an expression. *)
Definition is_object (e : Completion JsVal) : Completion JsVal :=
  v <- e ;; Normal (JBool (typeof_object v)).

(** [new Date().toISOString()]: each occurrence in a function body reads
    the clock; [clock i] is what the [i]-th occurrence returns. *)
Definition Clock := nat -> string.
Definition now (clock : Clock) (i : nat) : Completion JsVal :=
  Normal (JStr (clock i)).

(** [xs.map((x) => f(x))]: [f] sees the element and its index here; a
    value that is not an array has no callable [map]. *)
Fixpoint map_from (f : nat -> JsVal -> Completion JsVal) (i : nat)
  (items : list JsVal) : Completion (list JsVal) :=
  match items with
  | [] => Normal []
  | x :: tl =>
      y <- f i x ;; ys <- map_from f (S i) tl ;; Normal (y :: ys)
  end.

Definition array_map (name : string) (f : nat -> JsVal -> Completion JsVal)
  (xs : JsVal) : Completion JsVal :=
  match xs with
  | JArr items => ys <- map_from f O items ;; Normal (JArr ys)
  | JUndefined | JNull =>
      Throw (TypeError ("Cannot read properties of " +:+ describe xs
                        +:+ " (reading 'map')"))
  | _ => Throw (TypeError (name +:+ ".map is not a function"))
  end.

(** [xs[0]] *)
Definition first_element (xs : JsVal) : Completion JsVal :=
  match xs with
  | JUndefined | JNull =>
      Throw (TypeError ("Cannot read properties of " +:+ describe xs
                        +:+ " (reading '0')"))
  | JArr items => Normal (List.hd JUndefined items)
  | JStr (String c _) => Normal (JStr (String c ""))
  | JObj props => Normal (lookup_prop "0" props)
  | _ => Normal JUndefined
  end.

(** [v === s] for a string [s] *)
Definition strict_eq_string (v : JsVal) (s : string) : bool :=
  match v with
  | JStr t => String.eqb t s
  | _ => false
  end.

(** [xs.find((x) => p(x))] *)
Fixpoint find_from (p : JsVal -> Completion bool) (items : list JsVal)
  : Completion JsVal :=
  match items with
  | [] => Normal JUndefined
  | x :: tl => b <- p x ;; if b : bool then Normal x else find_from p tl
  end.

Definition array_find (name : string) (p : JsVal -> Completion bool)
  (xs : JsVal) : Completion JsVal :=
  match xs with
  | JArr items => find_from p items
  | JUndefined | JNull =>
      Throw (TypeError ("Cannot read properties of " +:+ describe xs
                        +:+ " (reading 'find')"))
  | _ => Throw (TypeError (name +:+ ".find is not a function"))
  end.

(** ** Strings and regular expressions

    The character tests of the pattern language, on code units below 256. *)

Definition code (c : ascii) : nat := nat_of_ascii c.
Definition between (lo hi : nat) (c : ascii) : bool :=
  (lo <=? code c)%nat && (code c <=? hi)%nat.

(** [\s] *)
Definition is_space (c : ascii) : bool :=
  between 9 13 c || (code c =? 32)%nat || (code c =? 160)%nat.

(** The word characters of [\b]: [A-Za-z0-9_]. *)
Definition is_word (c : ascii) : bool :=
  between 65 90 c || between 97 122 c || between 48 57 c || (code c =? 95)%nat.

(** Canonicalize of the [i] flag: the upper-case form of a letter. *)
Definition canonicalize (c : ascii) : ascii :=
  if between 97 122 c || (between 224 254 c && negb (code c =? 247)%nat)
  then ascii_of_nat (code c - 32) else c.

Definition lower (c : ascii) : ascii :=
  if between 65 90 c || (between 192 222 c && negb (code c =? 215)%nat)
  then ascii_of_nat (code c + 32) else c.

(** [s.toLowerCase()] *)
Fixpoint toLowerCase (s : string) : string :=
  match s with
  | EmptyString => EmptyString
  | String c rest => String (lower c) (toLowerCase rest)
  end.

Definition dquote : ascii := ascii_of_nat 34.
Definition squote : ascii := ascii_of_nat 39.

(** The patterns the source uses: literals, [\s], [[^\s]], bracket
    classes, [\b], sequence, alternation, greedy [*] and [?], and
    numbered capture groups. *)
Inductive Regex : Type :=
| Eps
| Lit (s : string)
| Space
| NotSpace
| OneOf (cs : list ascii)
| NoneOf (cs : list ascii)
| WordBoundary
| Seq (r1 r2 : Regex)
| Alt (r1 r2 : Regex)
| Star (r : Regex)
| Opt (r : Regex)
| Group (n : nat) (r : Regex).

(** [r+] *)
Definition Plus (r : Regex) : Regex := Seq r (Star r).

Fixpoint seq (rs : list Regex) : Regex :=
  match rs with
  | [] => Eps
  | [r] => r
  | r :: rest => Seq r (seq rest)
  end.

Fixpoint alt (rs : list Regex) : Regex :=
  match rs with
  | [] => NoneOf []
  | [r] => r
  | r :: rest => Alt r (alt rest)
  end.

(** The state of a match in progress: the character before the current
    position, the input from the current position on, and the groups
    captured so far (latest first). *)
Record MState : Type := mkMState {
  prev : option ascii;
  rest : list ascii;
  caps : list (nat * string)
}.

Definition group (n : nat) (cs : list (nat * string)) : option string :=
  snd <$> List.find (fun c => (fst c =? n)%nat) cs.

Definition advance (st : MState) (c : ascii) (tl : list ascii) : MState :=
  mkMState (Some c) tl (caps st).

Definition progress (st st' : MState) : bool :=
  (List.length (rest st') <? List.length (rest st))%nat.

Definition consumed (st st' : MState) : string :=
  string_of_list_ascii
    (firstn (List.length (rest st) - List.length (rest st')) (rest st)).

Definition Cont := MState -> option MState.

Definition one (p : ascii -> bool) (st : MState) (k : Cont) : option MState :=
  match rest st with
  | c :: tl => if p c then k (advance st c tl) else None
  | [] => None
  end.

Definition same_char (ignoreCase : bool) (a b : ascii) : bool :=
  if ignoreCase then Ascii.eqb (canonicalize a) (canonicalize b)
  else Ascii.eqb a b.

Fixpoint literal (ignoreCase : bool) (s : string) (st : MState) (k : Cont)
  : option MState :=
  match s with
  | EmptyString => k st
  | String a s' =>
      one (same_char ignoreCase a) st (fun st' => literal ignoreCase s' st' k)
  end.

Definition member (cs : list ascii) (c : ascii) : bool :=
  existsb (Ascii.eqb c) cs.

Definition at_word_boundary (st : MState) : bool :=
  let before := match prev st with Some c => is_word c | None => false end in
  let after := match rest st with c :: _ => is_word c | [] => false end in
  xorb before after.

(** Greedy repetition: an iteration that consumes nothing is rejected, so
    at most [n] iterations fit into [n] remaining characters. *)
Fixpoint star_loop (step : MState -> Cont -> option MState) (n : nat)
  (st : MState) (k : Cont) : option MState :=
  match n with
  | O => k st
  | S n' =>
      match step st (fun st' => if progress st st' then star_loop step n' st' k
                                else None) with
      | Some res => Some res
      | None => k st
      end
  end.

(** The backtracking matcher, in continuation-passing style: [rmatch r st
    k] is the first way, in priority order, of matching [r] at [st] such
    that [k] accepts what follows. *)
Fixpoint rmatch (ignoreCase : bool) (r : Regex) (st : MState) (k : Cont)
  : option MState :=
  match r with
  | Eps => k st
  | Lit s => literal ignoreCase s st k
  | Space => one is_space st k
  | NotSpace => one (fun c => negb (is_space c)) st k
  | OneOf cs => one (member cs) st k
  | NoneOf cs => one (fun c => negb (member cs c)) st k
  | WordBoundary => if at_word_boundary st then k st else None
  | Seq r1 r2 => rmatch ignoreCase r1 st (fun st' => rmatch ignoreCase r2 st' k)
  | Alt r1 r2 =>
      match rmatch ignoreCase r1 st k with
      | Some res => Some res
      | None => rmatch ignoreCase r2 st k
      end
  | Star r' => star_loop (rmatch ignoreCase r') (List.length (rest st)) st k
  | Opt r' =>
      match rmatch ignoreCase r' st
              (fun st' => if progress st st' then k st' else None) with
      | Some res => Some res
      | None => k st
      end
  | Group n r' =>
      rmatch ignoreCase r' st
        (fun st' => k (mkMState (prev st') (rest st')
                         ((n, consumed st st') :: caps st')))
  end.

(** A match at one position: the groups, group 0 being the whole match. *)
Definition match_at (ignoreCase : bool) (r : Regex) (p : option ascii)
  (s : list ascii) : option (list (nat * string)) :=
  caps <$> rmatch ignoreCase (Group 0 r) (mkMState p s []) Some.

(** [s.match(r)] for a pattern without the [g] flag: the leftmost match,
    or [null]. *)
Fixpoint search (ignoreCase : bool) (r : Regex) (p : option ascii)
  (s : list ascii) : option (list (nat * string)) :=
  match match_at ignoreCase r p s with
  | Some m => Some m
  | None =>
      match s with
      | [] => None
      | c :: tl => search ignoreCase r (Some c) tl
      end
  end.

Definition str_match (ignoreCase : bool) (r : Regex) (s : string)
  : option (list (nat * string)) :=
  search ignoreCase r None (list_ascii_of_string s).

(** [m[n]] on a match: the group, [undefined] when it did not take part;
    the source calls [.replace] on it, which throws on [undefined]. *)
Definition group_string (m : list (nat * string)) (n : nat) : Completion string :=
  match group n m with
  | Some g => Normal g
  | None =>
      Throw (TypeError "Cannot read properties of undefined (reading 'replace')")
  end.

(** A replacement pattern: literal text and [$n] references. *)
Inductive Piece : Type :=
| Text (s : string)
| Ref (n : nat).

Definition expand (repl : list Piece) (m : list (nat * string)) : list ascii :=
  flat_map (fun p => match p with
                     | Text s => list_ascii_of_string s
                     | Ref n => list_ascii_of_string (default "" (group n m))
                     end) repl.

(** [s.replace(r, repl)] for a pattern with the [g] flag.  [skip] counts
    the characters of the last match still to be passed over. *)
Fixpoint replace_from (ignoreCase : bool) (r : Regex) (repl : list Piece)
  (p : option ascii) (s : list ascii) (skip : nat) : list ascii :=
  match skip with
  | S skip' =>
      match s with
      | [] => []
      | c :: tl => replace_from ignoreCase r repl (Some c) tl skip'
      end
  | O =>
      match match_at ignoreCase r p s with
      | Some m =>
          let n := String.length (default "" (group 0 m)) in
          expand repl m ++
          match s with
          | [] => []
          | c :: tl =>
              match n with
              | O => c :: replace_from ignoreCase r repl (Some c) tl 0
              | S n' => replace_from ignoreCase r repl (Some c) tl n'
              end
          end
      | None =>
          match s with
          | [] => []
          | c :: tl => c :: replace_from ignoreCase r repl (Some c) tl 0
          end
      end
  end.

Definition replace_all (ignoreCase : bool) (r : Regex) (repl : list Piece)
  (s : string) : string :=
  string_of_list_ascii
    (replace_from ignoreCase r repl None (list_ascii_of_string s) 0).

(** ** The issue adapter: [JiraClient] *)
Module Jira.

Definition normalizeCustomIssue (clock : Clock) (customIssue : JsVal)
  : Completion JsVal :=
  object [
    ("id", customIssue.["id"] <||> customIssue.["issue_id"] <||> JStr "");
    ("key", customIssue.["key"] <||> customIssue.["id"] <||> customIssue.["number"]
            <||> JStr "");
    ("fields", object [
      ("summary", customIssue.["title"] <||> customIssue.["summary"]
                  <||> customIssue.["name"] <||> JStr "");
      ("description", customIssue.["description"] <||> customIssue.["body"]
                      <||> customIssue.["content"]);
      ("status", object [
        ("name", customIssue.["status"] <||> customIssue.["state"] <||> JStr "Unknown");
        ("id", customIssue.["status_id"] <||> customIssue.["status"] <||> JStr "1")
      ]);
      ("assignee", cond customIssue.["assignee"]
        (object [
          ("displayName", customIssue.["assignee"].["name"]
                          <||> customIssue.["assignee"] <||> JStr "");
          ("emailAddress", customIssue.["assignee"].["email"] <||> JStr "")
        ])
        JUndefined);
      ("reporter", cond (customIssue.["reporter"] <||> customIssue.["created_by"])
        (object [
          ("displayName", customIssue.["reporter"]?.["name"]
                          <||> customIssue.["created_by"] <||> JStr "");
          ("emailAddress", customIssue.["reporter"]?.["email"] <||> JStr "")
        ])
        JUndefined);
      ("created", customIssue.["created"] <||> customIssue.["created_at"]
                  <||> now clock 0);
      ("updated", customIssue.["updated"] <||> customIssue.["updated_at"]
                  <||> now clock 1);
      ("priority", cond customIssue.["priority"]
        (object [
          ("name", customIssue.["priority"]);
          ("id", customIssue.["priority_id"] <||> JStr "3")
        ])
        JUndefined);
      ("issuetype", object [
        ("name", customIssue.["type"] <||> customIssue.["issue_type"] <||> JStr "Task");
        ("id", customIssue.["type_id"] <||> JStr "1")
      ]);
      ("project", object [
        ("key", customIssue.["project"] <||> customIssue.["project_key"] <||> JStr "");
        ("name", customIssue.["project_name"] <||> customIssue.["project"] <||> JStr "")
      ]);
      ("labels", customIssue.["labels"] <||> customIssue.["tags"] <||> JArr [])
    ])
  ].


Definition normalizeCustomComment (clock : Clock) (customComment : JsVal)
  : Completion JsVal :=
  object [
    ("id", customComment.["id"] <||> customComment.["comment_id"] <||> JStr "");
    ("author", object [
      ("displayName", customComment.["author"] <||> customComment.["user"]
                      <||> customComment.["created_by"] <||> JStr "Unknown");
      ("emailAddress", customComment.["author_email"] <||> JStr "")
    ]);
    ("body", customComment.["comment"] <||> customComment.["body"]
             <||> customComment.["content"] <||> JStr "");
    ("created", customComment.["created"] <||> customComment.["created_at"]
                <||> now clock 0);
    ("updated", customComment.["updated"] <||> customComment.["updated_at"]
                <||> now clock 1)
  ].

Definition normalizeCustomProject (customProject : JsVal) : Completion JsVal :=
  object [
    ("id", customProject.["id"] <||> customProject.["project_id"] <||> JStr "");
    ("key", customProject.["key"] <||> customProject.["code"]
            <||> customProject.["id"] <||> JStr "");
    ("name", customProject.["name"] <||> customProject.["title"] <||> JStr "");
    ("description", customProject.["description"] <||> JStr "");
    ("lead", cond (customProject.["lead"] <||> customProject.["owner"])
      (object [
        ("displayName", customProject.["lead"]?.["name"]
                        <||> customProject.["owner"] <||> JStr "")
      ])
      JUndefined)
  ].

Definition normalizeCustomSearchResult (clocks : nat -> Clock)
  (customResult : JsVal) (maxResults startAt : Z) : Completion JsVal :=
  issues <- customResult.["issues"] <||> customResult.["data"]
            <||> customResult.["results"] <||> JArr [] ;;
  object [
    ("issues", array_map "issues"
                 (fun i issue => normalizeCustomIssue (clocks i) issue) issues);
    ("total", customResult.["total"] <||> issues.["length"]);
    ("maxResults", val (JNum maxResults));
    ("startAt", val (JNum startAt))
  ].

Definition quotes : Regex := OneOf [squote; dquote].

Definition clause (field : string) : Regex :=
  seq [Lit field; Star Space; Lit "="; Star Space; Group 1 (Plus NotSpace)].

Definition parseJqlToFilters (jql : string)
  : Completion (gmap string string) :=
  let filters : gmap string string := ∅ in
  let jqlLower := toLowerCase jql in
  filters <-
    match str_match true (clause "project") jql with
    | Some projectMatch =>
        g <- group_string projectMatch 1 ;;
        Normal (<["project" := replace_all false quotes [Text ""] g]> filters)
    | None => Normal filters
    end ;;
  filters <-
    match str_match true (clause "status") jql with
    | Some statusMatch =>
        g <- group_string statusMatch 1 ;;
        Normal (<["status" :=
                    replace_all false (OneOf [dquote]) [Text ""]
                      (replace_all false quotes [Text ""] g)]> filters)
    | None => Normal filters
    end ;;
  match str_match true (clause "assignee") jql with
  | Some assigneeMatch =>
      g <- group_string assigneeMatch 1 ;;
      let assignee := replace_all false quotes [Text ""] g in
      let assignee :=
        if String.eqb assignee "currentuser()" then "me" else assignee in
      Normal (<["assignee" := assignee]> filters)
  | None => Normal filters
  end.

End Jira.


(** ** The page adapter: [ConfluenceClient] *)
Module Confluence.

Definition normalizeCustomPage (clock : Clock) (customPage : JsVal)
  : Completion JsVal :=
  object [
    ("id", customPage.["id"] <||> customPage.["page_id"] <||> JStr "");
    ("title", customPage.["title"] <||> customPage.["name"] <||> JStr "");
    ("type", val (JStr "page"));
    ("status", customPage.["status"] <||> JStr "current");
    ("space", cond (customPage.["space"] <||> customPage.["space_key"])
      (object [
        ("key", cond (is_object customPage.["space"])
                  customPage.["space"].["key"]
                  (customPage.["space"] <||> customPage.["space_key"]));
        ("name", cond (is_object customPage.["space"])
                   customPage.["space"].["name"]
                   (customPage.["space"] <||> customPage.["space_key"]))
      ])
      JUndefined);
    ("body", object [
      ("storage", object [
        ("value", customPage.["content"] <||> customPage.["body"]
                  <||> customPage.["text"] <||> JStr "");
        ("representation", val (JStr "storage"))
      ]);
      ("view", object [
        ("value", customPage.["content"] <||> customPage.["body"]
                  <||> customPage.["text"] <||> JStr "");
        ("representation", val (JStr "view"))
      ])
    ]);
    ("version", object [
      ("number", customPage.["version"] <||> customPage.["revision"] <||> JNum 1);
      ("when", customPage.["updated"] <||> customPage.["updated_at"]
               <||> now clock 0);
      ("by", object [
        ("displayName", customPage.["updated_by"] <||> customPage.["author"]
                        <||> JStr "Unknown");
        ("email", customPage.["updated_by_email"] <||> JStr "")
      ])
    ]);
    ("history", object [
      ("createdDate", customPage.["created"] <||> customPage.["created_at"]
                      <||> now clock 1);
      ("createdBy", object [
        ("displayName", customPage.["created_by"] <||> customPage.["author"]
                        <||> JStr "Unknown");
        ("email", customPage.["created_by_email"] <||> JStr "")
      ])
    ]);
    ("_links", object [
      ("webui", customPage.["url"] <||> customPage.["link"] <||> JStr "");
      ("self", template "/rest/api/content/"
                 (customPage.["id"] <||> customPage.["page_id"]))
    ])
  ].

Definition normalizeCustomSpace (customSpace : JsVal) : Completion JsVal :=
  object [
    ("key", customSpace.["key"] <||> customSpace.["id"] <||> customSpace.["code"]
            <||> JStr "");
    ("name", customSpace.["name"] <||> customSpace.["title"] <||> JStr "");
    ("type", customSpace.["type"] <||> JStr "global");
    ("description", object [
      ("plain", object [
        ("value", customSpace.["description"] <||> JStr "")
      ])
    ]);
    ("_links", object [
      ("webui", customSpace.["url"] <||> customSpace.["link"] <||> JStr "");
      ("self", template "/rest/api/space/"
                 (customSpace.["key"] <||> customSpace.["id"]))
    ])
  ].

Definition normalizeCustomComment (clock : Clock) (customComment : JsVal)
  : Completion JsVal :=
  object [
    ("id", customComment.["id"] <||> customComment.["comment_id"] <||> JStr "");
    ("type", val (JStr "comment"));
    ("title", customComment.["title"] <||> JStr "");
    ("body", object [
      ("storage", object [
        ("value", customComment.["comment"] <||> customComment.["body"]
                  <||> customComment.["content"] <||> JStr "");
        ("representation", val (JStr "storage"))
      ])
    ]);
    ("version", object [
      ("number", customComment.["version"] <||> JNum 1);
      ("when", customComment.["created"] <||> customComment.["created_at"]
               <||> now clock 0);
      ("by", object [
        ("displayName", customComment.["author"] <||> customComment.["user"]
                        <||> customComment.["created_by"] <||> JStr "Unknown");
        ("email", customComment.["author_email"] <||> JStr "")
      ])
    ])
  ].

Definition normalizeCustomSearchResult (clocks : nat -> Clock)
  (customResult : JsVal) (limit start : Z) : Completion JsVal :=
  pages <- customResult.["pages"] <||> customResult.["data"]
           <||> customResult.["results"] <||> JArr [] ;;
  object [
    ("results", array_map "pages"
                  (fun i page => normalizeCustomPage (clocks i) page) pages);
    ("start", val (JNum start));
    ("limit", val (JNum limit));
    ("size", pages.["length"])
  ].

Definition keywords : Regex :=
  seq [WordBoundary; Group 1 (alt [Lit "and"; Lit "or"; Lit "not"]);
       WordBoundary].

Definition field_clause : Regex :=
  seq [Group 1 (alt [Lit "space"; Lit "type"; Lit "title"; Lit "text"]);
       Star Space; Lit "="; Star Space;
       Opt (OneOf [dquote; squote]);
       Group 2 (Plus (NoneOf [dquote; squote]));
       Opt (OneOf [dquote; squote])].

(** [s.split()]: without a separator the result is the one-element array
    holding [s]. *)
Definition split (s : string) : list string := [s].

Definition parseCqlToSimpleQuery (cql : string) : string :=
  let query := replace_all true keywords [Text " "] cql in
  let query := replace_all true field_clause [Ref 2] query in
  String.concat " "
    (List.filter (fun term => (2 <? String.length term)%nat) (split query)).


(** The client's configuration and the upstream.  A request is answered
    with the [data] of the response, or the HTTP client throws. *)
Record Config : Type := mkConfig {
  useCustomApi : bool;
  customApiVersion : string;
  maxResultsDefault : Z
}.

Record Request : Type := mkRequest {
  verb : string;
  url : string;
  params : list (string * JsVal)
}.

Section Client.

Variable config : Config.
Variable http : Request -> Completion JsVal.
Variable clocks : nat -> Clock.

(** [s > 0] for a string [s]: the comparison converts [s] to a number. *)
Variable string_gt_zero : string -> bool.

(** [v > 0] *)
Definition gt_zero (v : JsVal) : Completion bool :=
  match v with
  | JNum n => Normal (0 <? n)
  | JBool b => Normal b
  | JUndefined | JNull => Normal false
  | _ => s <- toString v ;; Normal (string_gt_zero s)
  end.

(** [(e).toLowerCase()] *)
Definition lower_case (e : Completion JsVal) : Completion string :=
  v <- e ;;
  match v with
  | JStr s => Normal (toLowerCase s)
  | JUndefined | JNull =>
      Throw (TypeError ("Cannot read properties of " +:+ describe v
                        +:+ " (reading 'toLowerCase')"))
  | _ => Throw (TypeError "(intermediate value).toLowerCase is not a function")
  end.

Definition getPageByTitle (spaceKey title : string) (expand : list string)
  : Completion JsVal :=
  rethrow ("Failed to get page " +:+ String dquote title +:+ String dquote ""
           +:+ " in space " +:+ spaceKey +:+ ": ")
    (if useCustomApi config then
       data <- http (mkRequest "GET"
                       ("/" +:+ customApiVersion config +:+ "/pages/search")
                       [("q", JStr title); ("space", JStr spaceKey);
                        ("limit", JNum 1)]) ;;
       pages <- data.["pages"] <||> data.["data"] <||> data.["results"]
                <||> JArr [] ;;
       len <- pages.["length"] ;;
       nonempty <- gt_zero len ;;
       if nonempty : bool then
         page <- first_element pages ;;
         pageTitle <- lower_case (page.["title"] <||> page.["name"] <||> JStr "") ;;
         if String.eqb pageTitle (toLowerCase title)
         then normalizeCustomPage (clocks 0) page
         else Normal JNull
       else Normal JNull
     else
       data <- http (mkRequest "GET" "/content"
                       [("spaceKey", JStr spaceKey); ("title", JStr title);
                        ("expand", JStr (String.concat "," expand))]) ;;
       results <- data.["results"] <||> JArr [] ;;
       len <- results.["length"] ;;
       nonempty <- gt_zero len ;;
       if nonempty : bool then first_element results else Normal JNull).

Definition getSpaces (limit : Z) : Completion JsVal :=
  rethrow "Failed to get spaces: "
    (if useCustomApi config then
       data <- http (mkRequest "GET"
                       ("/" +:+ customApiVersion config +:+ "/spaces")
                       [("limit", JNum limit)]) ;;
       spaces <- data.["spaces"] <||> data.["data"] <||> JArr [] ;;
       array_map "spaces" (fun _ space => normalizeCustomSpace space) spaces
     else
       data <- http (mkRequest "GET" "/space" [("limit", JNum limit)]) ;;
       data.["results"] <||> JArr []).

Definition getSpace (spaceKey : string) : Completion JsVal :=
  rethrow ("Failed to get space " +:+ spaceKey +:+ ": ")
    (if useCustomApi config then
       spaces <- getSpaces (maxResultsDefault config) ;;
       space <- array_find "spaces"
                  (fun s =>
                     k <- s.["key"] ;;
                     if strict_eq_string k spaceKey then Normal true
                     else n <- s.["name"] ;; Normal (strict_eq_string n spaceKey))
                  spaces ;;
       if negb (truthy space)
       then Throw (Error ("Space " +:+ spaceKey +:+ " not found"))
       else Normal space
     else
       http (mkRequest "GET" ("/space/" +:+ spaceKey)
               [("expand", JStr "description,homepage")])).

End Client.

End Confluence.

(** ** The operations of the two clients

    A call of the HTTP client: the verb, the path under the base URL, the
    query parameters and the request body ([undefined] when the call has
    none).  The upstream answers a call with the [data] of its response,
    or the HTTP client throws. *)
Record Call : Type := mkCall {
  call_method : string;
  call_url : string;
  call_params : gmap string JsVal;
  call_data : JsVal
}.

(** An array literal: the elements are evaluated in order. *)
Fixpoint elements (items : list (Completion JsVal)) : Completion (list JsVal) :=
  match items with
  | [] => Normal []
  | c :: rest => v <- c ;; vs <- elements rest ;; Normal (v :: vs)
  end.

Definition array (items : list (Completion JsVal)) : Completion JsVal :=
  vs <- elements items ;; Normal (JArr vs).

(** [obj.k = v] on the properties of an object under construction. *)
Fixpoint set_prop (k : string) (v : JsVal) (props : list (string * JsVal))
  : list (string * JsVal) :=
  match props with
  | [] => [(k, v)]
  | (k', v') :: rest =>
      if String.eqb k k' then (k, v) :: rest else (k', v') :: set_prop k v rest
  end.

(** [if (e) obj.k = e] *)
Definition set_if_truthy (k : string) (e : Completion JsVal)
  (props : list (string * JsVal)) : Completion (list (string * JsVal)) :=
  v <- e ;; Normal (if truthy v then set_prop k v props else props).

(** [try { body } catch { return fallback }] *)
Definition catch_all {A} (body : Completion A) (fallback : A) : Completion A :=
  match body with
  | Normal a => Normal a
  | Throw _ => Normal fallback
  end.

(** The document that wraps a text for the standard issue API. *)
Definition paragraph_doc (text : Completion JsVal) : Completion JsVal :=
  object [
    ("type", val (JStr "doc"));
    ("version", val (JNum 1));
    ("content", array [
      object [
        ("type", val (JStr "paragraph"));
        ("content", array [
          object [("type", val (JStr "text")); ("text", text)]
        ])
      ]
    ])
  ].

(** The storage body of a page or comment for the standard page API. *)
Definition storage_body (content : string) : Completion JsVal :=
  object [
    ("storage", object [
      ("value", val (JStr content));
      ("representation", val (JStr "storage"))
    ])
  ].

Module JiraOperations.

Record Config : Type := mkConfig {
  useCustomApi : bool;
  customApiVersion : string;
  maxResultsDefault : Z
}.

Section Client.

Variable config : Config.
Variable http : Call -> Completion JsVal.
Variable clocks : nat -> Clock.

Definition getIssue (issueKey : string) : Completion JsVal :=
  rethrow ("Failed to get issue " +:+ issueKey +:+ ": ")
    (let url := if useCustomApi config
                then "/" +:+ customApiVersion config +:+ "/issues/" +:+ issueKey
                else "/issue/" +:+ issueKey in
     data <- http (mkCall "GET" url ∅ JUndefined) ;;
     if useCustomApi config
     then Jira.normalizeCustomIssue (clocks 0) data
     else Normal data).

Definition search_fields : list JsVal :=
  JStr <$> ["summary"; "status"; "assignee"; "reporter"; "created"; "updated";
            "priority"; "issuetype"; "project"; "labels"; "description"].

Definition searchIssues (jql : string) (maxResults startAt : Z)
  : Completion JsVal :=
  rethrow "Failed to search issues: "
    (if useCustomApi config then
       filters <- Jira.parseJqlToFilters jql ;;
       data <- http (mkCall "GET"
                       ("/" +:+ customApiVersion config +:+ "/issues/search")
                       (<["offset" := JNum startAt]>
                          (<["limit" := JNum maxResults]> (JStr <$> filters)))
                       JUndefined) ;;
       Jira.normalizeCustomSearchResult clocks data maxResults startAt
     else
       http (mkCall "POST" "/search" ∅
               (JObj [("jql", JStr jql); ("maxResults", JNum maxResults);
                      ("startAt", JNum startAt);
                      ("fields", JArr search_fields)]))).

Definition createIssue (projectKey : string) (issueData : JsVal)
  : Completion JsVal :=
  rethrow "Failed to create issue: "
    (if useCustomApi config then
       customData <- object [
         ("project", val (JStr projectKey));
         ("title", issueData.["summary"]);
         ("description", issueData.["description"] <||> JStr "");
         ("type", s <- Confluence.lower_case
                        (issueData.["issueType"] <||> JStr "Task") ;;
                  Normal (JStr s));
         ("priority", issueData.["priority"]);
         ("assignee", issueData.["assignee"]);
         ("labels", issueData.["labels"])
       ] ;;
       data <- http (mkCall "POST" ("/" +:+ customApiVersion config +:+ "/issues")
                       ∅ customData) ;;
       Jira.normalizeCustomIssue (clocks 0) data
     else
       payload <- object [
         ("fields", object [
           ("project", object [("key", val (JStr projectKey))]);
           ("summary", issueData.["summary"]);
           ("description", cond issueData.["description"]
                             (paragraph_doc issueData.["description"])
                             JUndefined);
           ("issuetype", object [
             ("name", issueData.["issueType"] <||> JStr "Task")
           ]);
           ("priority", cond issueData.["priority"]
                          (object [("name", issueData.["priority"])])
                          JUndefined);
           ("assignee", cond issueData.["assignee"]
                          (object [("name", issueData.["assignee"])])
                          JUndefined);
           ("labels", issueData.["labels"] <||> JArr [])
         ])
       ] ;;
       data <- http (mkCall "POST" "/issue" ∅ payload) ;;
       key <- data.["key"] ;;
       issueKey <- toString key ;;
       getIssue issueKey).

Definition updateIssue (issueKey : string) (updateData : JsVal)
  : Completion JsVal :=
  rethrow ("Failed to update issue " +:+ issueKey +:+ ": ")
    (if useCustomApi config then
       customData <- Normal [] ;;
       customData <- set_if_truthy "title" updateData.["summary"] customData ;;
       customData <- set_if_truthy "description" updateData.["description"]
                       customData ;;
       customData <- set_if_truthy "assignee" updateData.["assignee"] customData ;;
       customData <- set_if_truthy "priority" updateData.["priority"] customData ;;
       customData <- set_if_truthy "labels" updateData.["labels"] customData ;;
       _ <- http (mkCall "PUT"
                    ("/" +:+ customApiVersion config +:+ "/issues/" +:+ issueKey)
                    ∅ (JObj customData)) ;;
       Normal JUndefined
     else
       fields <- Normal [] ;;
       fields <- set_if_truthy "summary" updateData.["summary"] fields ;;
       fields <- (d <- updateData.["description"] ;;
                  if truthy d
                  then doc <- paragraph_doc updateData.["description"] ;;
                       Normal (set_prop "description" doc fields)
                  else Normal fields) ;;
       fields <- (a <- updateData.["assignee"] ;;
                  if truthy a
                  then o <- object [("name", updateData.["assignee"])] ;;
                       Normal (set_prop "assignee" o fields)
                  else Normal fields) ;;
       fields <- (p <- updateData.["priority"] ;;
                  if truthy p
                  then o <- object [("name", updateData.["priority"])] ;;
                       Normal (set_prop "priority" o fields)
                  else Normal fields) ;;
       fields <- set_if_truthy "labels" updateData.["labels"] fields ;;
       _ <- http (mkCall "PUT" ("/issue/" +:+ issueKey) ∅
                    (JObj [("fields", JObj fields)])) ;;
       Normal JUndefined).

Definition addComment (issueKey comment : string) : Completion JsVal :=
  rethrow ("Failed to add comment to " +:+ issueKey +:+ ": ")
    (if useCustomApi config then
       data <- http (mkCall "POST"
                       ("/" +:+ customApiVersion config +:+ "/issues/"
                        +:+ issueKey +:+ "/comments")
                       ∅ (JObj [("comment", JStr comment)])) ;;
       Jira.normalizeCustomComment (clocks 0) data
     else
       payload <- object [("body", paragraph_doc (JStr comment))] ;;
       http (mkCall "POST" ("/issue/" +:+ issueKey +:+ "/comment") ∅ payload)).

Definition getComments (issueKey : string) : Completion JsVal :=
  rethrow ("Failed to get comments for " +:+ issueKey +:+ ": ")
    (if useCustomApi config then
       data <- http (mkCall "GET"
                       ("/" +:+ customApiVersion config +:+ "/issues/"
                        +:+ issueKey +:+ "/comments")
                       ∅ JUndefined) ;;
       comments <- data.["comments"] <||> data.["data"] <||> JArr [] ;;
       array_map "comments"
         (fun i comment => Jira.normalizeCustomComment (clocks i) comment)
         comments
     else
       data <- http (mkCall "GET" ("/issue/" +:+ issueKey +:+ "/comment")
                       ∅ JUndefined) ;;
       data.["comments"] <||> JArr []).

Definition getProjects : Completion JsVal :=
  rethrow "Failed to get projects: "
    (if useCustomApi config then
       data <- http (mkCall "GET"
                       ("/" +:+ customApiVersion config +:+ "/projects")
                       ∅ JUndefined) ;;
       projects <- data.["projects"] <||> data.["data"] <||> JArr [] ;;
       array_map "projects"
         (fun _ project => Jira.normalizeCustomProject project) projects
     else
       http (mkCall "GET" "/project" ∅ JUndefined)).

(** The arrow function that [getTransitions] maps over the transitions. *)
Definition transition_of (t : JsVal) : Completion JsVal :=
  object [
    ("id", t.["id"] <||> t.["transition_id"] <||> JStr "");
    ("name", t.["name"] <||> t.["status"] <||> t.["to_status"] <||> JStr "");
    ("to", object [
      ("name", t.["to_status"] <||> t.["target_status"] <||> t.["name"]
               <||> JStr "");
      ("id", t.["to_id"] <||> t.["id"] <||> JStr "")
    ])
  ].

Definition getTransitions (issueKey : string) : Completion JsVal :=
  rethrow ("Failed to get transitions for " +:+ issueKey +:+ ": ")
    (if useCustomApi config then
       data <- http (mkCall "GET"
                       ("/" +:+ customApiVersion config +:+ "/issues/"
                        +:+ issueKey +:+ "/transitions")
                       ∅ JUndefined) ;;
       transitions <- data.["transitions"] <||> data.["data"] <||> JArr [] ;;
       array_map "transitions" (fun _ t => transition_of t) transitions
     else
       data <- http (mkCall "GET" ("/issue/" +:+ issueKey +:+ "/transitions")
                       ∅ JUndefined) ;;
       data.["transitions"] <||> JArr []).

Definition transitionIssue (issueKey transitionId : string) : Completion JsVal :=
  rethrow ("Failed to transition issue " +:+ issueKey +:+ ": ")
    (if useCustomApi config then
       _ <- http (mkCall "POST"
                    ("/" +:+ customApiVersion config +:+ "/issues/"
                     +:+ issueKey +:+ "/transitions")
                    ∅ (JObj [("transition", JStr transitionId)])) ;;
       Normal JUndefined
     else
       _ <- http (mkCall "POST" ("/issue/" +:+ issueKey +:+ "/transitions") ∅
                    (JObj [("transition", JObj [("id", JStr transitionId)])])) ;;
       Normal JUndefined).

End Client.

End JiraOperations.

Module ConfluenceOperations.

Section Client.

Variable config : Confluence.Config.
Variable http : Call -> Completion JsVal.
Variable clocks : nat -> Clock.

Definition custom : bool := Confluence.useCustomApi config.
Definition version_prefix : string :=
  "/" +:+ Confluence.customApiVersion config.

Definition getPage (pageId : string) (expand : list string) : Completion JsVal :=
  rethrow ("Failed to get page " +:+ pageId +:+ ": ")
    (let url := if custom then version_prefix +:+ "/pages/" +:+ pageId
                else "/content/" +:+ pageId in
     let params : gmap string JsVal :=
       if custom then ∅
       else {[ "expand" := JStr (String.concat "," expand) ]} in
     data <- http (mkCall "GET" url params JUndefined) ;;
     if custom then Confluence.normalizeCustomPage (clocks 0) data
     else Normal data).

Definition searchContent (cql : string) (limit start : Z) : Completion JsVal :=
  rethrow "Failed to search content: "
    (if custom then
       let query := Confluence.parseCqlToSimpleQuery cql in
       data <- http (mkCall "GET" (version_prefix +:+ "/pages/search")
                       (<["offset" := JNum start]>
                          (<["limit" := JNum limit]> {[ "q" := JStr query ]}))
                       JUndefined) ;;
       Confluence.normalizeCustomSearchResult clocks data limit start
     else
       http (mkCall "GET" "/content/search"
               (<["expand" := JStr "body.storage,space,version"]>
                  (<["start" := JNum start]>
                     (<["limit" := JNum limit]> {[ "cql" := JStr cql ]})))
               JUndefined)).

Definition createPage (spaceKey title content : string) (parentPageId : JsVal)
  : Completion JsVal :=
  rethrow ("Failed to create page " +:+ String dquote title
           +:+ String dquote "" +:+ ": ")
    (if custom then
       let pageData :=
         JObj ([("title", JStr title); ("content", JStr content);
                ("space", JStr spaceKey)]
               ++ (if truthy parentPageId then [("parent_id", parentPageId)]
                   else [])) in
       data <- http (mkCall "POST" (version_prefix +:+ "/pages") ∅ pageData) ;;
       Confluence.normalizeCustomPage (clocks 0) data
     else
       body <- storage_body content ;;
       let payload := [("type", JStr "page"); ("title", JStr title);
                       ("space", JObj [("key", JStr spaceKey)]);
                       ("body", body)] in
       let payload :=
         if truthy parentPageId
         then set_prop "ancestors" (JArr [JObj [("id", parentPageId)]]) payload
         else payload in
       http (mkCall "POST" "/content" ∅ (JObj payload))).

Definition updatePage (pageId title content : string) (version : Z)
  : Completion JsVal :=
  rethrow ("Failed to update page " +:+ pageId +:+ ": ")
    (if custom then
       let pageData := JObj [("title", JStr title); ("content", JStr content);
                             ("version", JNum (version + 1))] in
       data <- http (mkCall "PUT" (version_prefix +:+ "/pages/" +:+ pageId)
                       ∅ pageData) ;;
       Confluence.normalizeCustomPage (clocks 0) data
     else
       body <- storage_body content ;;
       http (mkCall "PUT" ("/content/" +:+ pageId) ∅
               (JObj [("version", JObj [("number", JNum (version + 1))]);
                      ("title", JStr title); ("type", JStr "page");
                      ("body", body)]))).

Definition deletePage (pageId : string) : Completion JsVal :=
  rethrow ("Failed to delete page " +:+ pageId +:+ ": ")
    (let url := if custom then version_prefix +:+ "/pages/" +:+ pageId
                else "/content/" +:+ pageId in
     _ <- http (mkCall "DELETE" url ∅ JUndefined) ;;
     Normal JUndefined).

Definition getPageChildren (pageId : string) : Completion JsVal :=
  rethrow ("Failed to get children of page " +:+ pageId +:+ ": ")
    (if custom then
       catch_all
         (data <- http (mkCall "GET"
                          (version_prefix +:+ "/pages/" +:+ pageId +:+ "/children")
                          ∅ JUndefined) ;;
          children <- data.["children"] <||> data.["data"] <||> JArr [] ;;
          array_map "children"
            (fun i child => Confluence.normalizeCustomPage (clocks i) child)
            children)
         (JArr [])
     else
       data <- http (mkCall "GET" ("/content/" +:+ pageId +:+ "/child/page")
                       {[ "expand" := JStr "body.storage,space,version" ]}
                       JUndefined) ;;
       data.["results"] <||> JArr []).

Definition addComment (pageId comment : string) : Completion JsVal :=
  rethrow ("Failed to add comment to page " +:+ pageId +:+ ": ")
    (if custom then
       data <- http (mkCall "POST"
                       (version_prefix +:+ "/pages/" +:+ pageId +:+ "/comments")
                       ∅ (JObj [("comment", JStr comment)])) ;;
       Confluence.normalizeCustomComment (clocks 0) data
     else
       body <- storage_body comment ;;
       http (mkCall "POST" "/content" ∅
               (JObj [("type", JStr "comment");
                      ("container", JObj [("id", JStr pageId)]);
                      ("body", body)]))).

Definition getComments (pageId : string) : Completion JsVal :=
  rethrow ("Failed to get comments for page " +:+ pageId +:+ ": ")
    (if custom then
       catch_all
         (data <- http (mkCall "GET"
                          (version_prefix +:+ "/pages/" +:+ pageId +:+ "/comments")
                          ∅ JUndefined) ;;
          comments <- data.["comments"] <||> data.["data"] <||> JArr [] ;;
          array_map "comments"
            (fun i comment => Confluence.normalizeCustomComment (clocks i) comment)
            comments)
         (JArr [])
     else
       data <- http (mkCall "GET" ("/content/" +:+ pageId +:+ "/child/comment")
                       {[ "expand" := JStr "body.storage,version" ]}
                       JUndefined) ;;
       data.["results"] <||> JArr []).

End Client.

End ConfluenceOperations.

(** * Properties *)

(** ** Evaluation lemmas *)

(** The property read that never throws: [undefined] where [get] throws. *)
Definition prop (base : JsVal) (k : string) : JsVal :=
  match get base k with
  | Normal v => v
  | Throw _ => JUndefined
  end.

(** [a || b] on values. *)
Definition jor (a b : JsVal) : JsVal := if truthy a then a else b.

(** Reading a path of nested properties of a result. *)
Fixpoint field (v : JsVal) (path : list string) : JsVal :=
  match path with
  | [] => v
  | k :: rest => field (prop v k) rest
  end.

Definition nullish (v : JsVal) : bool :=
  match v with JUndefined | JNull => true | _ => false end.

Lemma get_normal v k : nullish v = false -> get v k = Normal (prop v k).
Proof. destruct v; simpl; intros H; try discriminate H; reflexivity. Qed.

Lemma truthy_not_nullish v : truthy v = true -> nullish v = false.
Proof. destruct v; simpl; intros H; try discriminate H; reflexivity. Qed.

Lemma dot_normal v k : nullish v = false -> (Normal v).[k] = Normal (prop v k).
Proof. intros H. unfold dot. simpl. now apply get_normal. Qed.

Lemma dot_opt_normal v k : (Normal v)?.[k] = Normal (prop v k).
Proof. destruct v; reflexivity. Qed.

Lemma or_else_normal a b : (Normal a <||> Normal b) = Normal (jor a b).
Proof. unfold or_else, jor. simpl. now destruct (truthy a). Qed.

Lemma cond_normal c a b :
  cond (Normal c) (Normal a) (Normal b) = Normal (if truthy c then a else b).
Proof. unfold cond. simpl. now destruct (truthy c). Qed.

Lemma cond_guarded c a b a' b' :
  (truthy c = true -> a = Normal a') -> b = Normal b' ->
  cond (Normal c) a b = Normal (if truthy c then a' else b').
Proof.
  intros Ha Hb. unfold cond. simpl.
  destruct (truthy c); [now apply Ha | exact Hb].
Qed.


Lemma jor_falsy a b : truthy a = false -> jor a b = b.
Proof. unfold jor. now intros ->. Qed.

Lemma jor_defined a b : b <> JUndefined -> jor a b <> JUndefined.
Proof.
  unfold jor. destruct (truthy a) eqn:E; [ | easy].
  intros _ ->. discriminate E.
Qed.

Lemma is_object_normal v :
  is_object (Normal v) = Normal (JBool (typeof_object v)).
Proof. reflexivity. Qed.

Lemma template_normal prefix v s :
  toString v = Normal s ->
  template prefix (Normal v) = Normal (JStr (prefix +:+ s)).
Proof. intros H. unfold template. simpl. now rewrite H. Qed.

Lemma guarded_not_null space key :
  (space = JNull -> truthy key = false) ->
  truthy (jor space key) = true ->
  truthy (JBool (typeof_object space)) = true ->
  nullish space = false.
Proof.
  intros H Hj Ht. destruct space; try reflexivity; try discriminate Ht.
  unfold jor in Hj. simpl in Hj. rewrite H in Hj by reflexivity. discriminate Hj.
Qed.

(** Evaluating an object literal whose reads cannot throw: every [||]
    chain becomes a value, guarded reads are evaluated under their guard,
    and the literal is assembled. *)
Ltac not_nullish :=
  solve [ eassumption
        | reflexivity
        | apply truthy_not_nullish; eassumption
        | eapply guarded_not_null; eassumption ].

Ltac chains :=
  repeat first
    [ rewrite dot_opt_normal
    | rewrite or_else_normal
    | rewrite cond_normal
    | rewrite is_object_normal
    | rewrite dot_normal by not_nullish
    | erewrite template_normal by eassumption
    | progress cbn [object properties bind] ].

Ltac eval_literal raw :=
  unfold now, val;
  rewrite ?(dot_normal raw) by not_nullish;
  chains;
  repeat (erewrite cond_guarded;
          [ | intros ?; chains;
              repeat (erewrite cond_guarded;
                      [ | intros ?; chains; reflexivity | chains; reflexivity ]);
              chains; reflexivity
            | chains; reflexivity ];
          chains).

(** ** The alias tables of the normalizers

    An attribute of a canonical entity: where it sits in the entity, the
    raw keys consulted for it in priority order, and the value it takes
    when none of them gives one. *)
Record Attribute : Type := mkAttribute {
  path : list string;
  aliases : list string;
  default : JsVal
}.

(** The value of the first alias that is truthy, else the default: the
    chain [raw.a1 || raw.a2 || ... || default]. *)
Definition first_truthy (raw : JsVal) (keys : list string) (d : JsVal) : JsVal :=
  fold_right (fun k rest => jor (prop raw k) rest) d keys.


Definition follows_aliases (raw r : JsVal) (a : Attribute) : Prop :=
  field r (path a) = first_truthy raw (aliases a) (default a).

(** Never [undefined], and the default when the raw object has none of
    the aliases. *)
Definition defaulted (raw r : JsVal) (a : Attribute) : Prop :=
  field r (path a) <> JUndefined /\
  (Forall (fun k => prop raw k = JUndefined) (aliases a) ->
   field r (path a) = default a).

Definition issue_required (clock : Clock) : list Attribute := [
  mkAttribute ["id"] ["id"; "issue_id"] (JStr "");
  mkAttribute ["key"] ["key"; "id"; "number"] (JStr "");
  mkAttribute ["fields"; "summary"] ["title"; "summary"; "name"] (JStr "");
  mkAttribute ["fields"; "status"; "name"] ["status"; "state"] (JStr "Unknown");
  mkAttribute ["fields"; "status"; "id"] ["status_id"; "status"] (JStr "1");
  mkAttribute ["fields"; "created"] ["created"; "created_at"] (JStr (clock 0%nat));
  mkAttribute ["fields"; "updated"] ["updated"; "updated_at"] (JStr (clock 1%nat));
  mkAttribute ["fields"; "issuetype"; "name"] ["type"; "issue_type"] (JStr "Task");
  mkAttribute ["fields"; "issuetype"; "id"] ["type_id"] (JStr "1");
  mkAttribute ["fields"; "project"; "key"] ["project"; "project_key"] (JStr "");
  mkAttribute ["fields"; "project"; "name"] ["project_name"; "project"] (JStr "");
  mkAttribute ["fields"; "labels"] ["labels"; "tags"] (JArr [])
].

(** [description] has no default: when [description] and [body] are
    falsy it is whatever [content] holds. *)
Definition issue_attributes (clock : Clock) (raw : JsVal) : list Attribute :=
  mkAttribute ["fields"; "description"] ["description"; "body"]
    (prop raw "content")
  :: issue_required clock.

Definition issue_comment_required (clock : Clock) : list Attribute := [
  mkAttribute ["id"] ["id"; "comment_id"] (JStr "");
  mkAttribute ["author"; "displayName"] ["author"; "user"; "created_by"]
    (JStr "Unknown");
  mkAttribute ["author"; "emailAddress"] ["author_email"] (JStr "");
  mkAttribute ["body"] ["comment"; "body"; "content"] (JStr "");
  mkAttribute ["created"] ["created"; "created_at"] (JStr (clock 0%nat));
  mkAttribute ["updated"] ["updated"; "updated_at"] (JStr (clock 1%nat))
].

Definition project_required : list Attribute := [
  mkAttribute ["id"] ["id"; "project_id"] (JStr "");
  mkAttribute ["key"] ["key"; "code"; "id"] (JStr "");
  mkAttribute ["name"] ["name"; "title"] (JStr "");
  mkAttribute ["description"] ["description"] (JStr "")
].

Definition page_required (clock : Clock) : list Attribute := [
  mkAttribute ["id"] ["id"; "page_id"] (JStr "");
  mkAttribute ["title"] ["title"; "name"] (JStr "");
  mkAttribute ["type"] [] (JStr "page");
  mkAttribute ["status"] ["status"] (JStr "current");
  mkAttribute ["body"; "storage"; "value"] ["content"; "body"; "text"] (JStr "");
  mkAttribute ["body"; "storage"; "representation"] [] (JStr "storage");
  mkAttribute ["body"; "view"; "value"] ["content"; "body"; "text"] (JStr "");
  mkAttribute ["body"; "view"; "representation"] [] (JStr "view");
  mkAttribute ["version"; "number"] ["version"; "revision"] (JNum 1);
  mkAttribute ["version"; "when"] ["updated"; "updated_at"] (JStr (clock 0%nat));
  mkAttribute ["version"; "by"; "displayName"] ["updated_by"; "author"]
    (JStr "Unknown");
  mkAttribute ["version"; "by"; "email"] ["updated_by_email"] (JStr "");
  mkAttribute ["history"; "createdDate"] ["created"; "created_at"]
    (JStr (clock 1%nat));
  mkAttribute ["history"; "createdBy"; "displayName"] ["created_by"; "author"]
    (JStr "Unknown");
  mkAttribute ["history"; "createdBy"; "email"] ["created_by_email"] (JStr "");
  mkAttribute ["_links"; "webui"] ["url"; "link"] (JStr "")
].

Definition space_required : list Attribute := [
  mkAttribute ["key"] ["key"; "id"; "code"] (JStr "");
  mkAttribute ["name"] ["name"; "title"] (JStr "");
  mkAttribute ["type"] ["type"] (JStr "global");
  mkAttribute ["description"; "plain"; "value"] ["description"] (JStr "");
  mkAttribute ["_links"; "webui"] ["url"; "link"] (JStr "")
].

Definition page_comment_required (clock : Clock) : list Attribute := [
  mkAttribute ["id"] ["id"; "comment_id"] (JStr "");
  mkAttribute ["type"] [] (JStr "comment");
  mkAttribute ["title"] ["title"] (JStr "");
  mkAttribute ["body"; "storage"; "value"] ["comment"; "body"; "content"]
    (JStr "");
  mkAttribute ["body"; "storage"; "representation"] [] (JStr "storage");
  mkAttribute ["version"; "number"] ["version"] (JNum 1);
  mkAttribute ["version"; "when"] ["created"; "created_at"] (JStr (clock 0%nat));
  mkAttribute ["version"; "by"; "displayName"] ["author"; "user"; "created_by"]
    (JStr "Unknown");
  mkAttribute ["version"; "by"; "email"] ["author_email"] (JStr "")
].

(** The page normalizer reads [space.key] when [typeof space] is
    ['object'], which [null] satisfies; it prints [id || page_id] into the
    [self] link.  It returns on the raw pages where neither throws. *)
Definition printable (v : JsVal) : Prop := exists s, toString v = Normal s.

Definition page_ok (raw : JsVal) : Prop :=
  (prop raw "space" = JNull -> truthy (prop raw "space_key") = false) /\
  printable (jor (prop raw "id") (prop raw "page_id")).

Definition space_ok (raw : JsVal) : Prop :=
  printable (jor (prop raw "key") (prop raw "id")).

Ltac holds_for_all :=
  repeat (constructor; [reflexivity | ]); constructor.

Lemma issue_follows clock raw :
  nullish raw = false ->
  exists r, Jira.normalizeCustomIssue clock raw = Normal r /\
            Forall (follows_aliases raw r) (issue_attributes clock raw).
Proof.
  intros H. eexists. split.
  - unfold Jira.normalizeCustomIssue. eval_literal raw. reflexivity.
  - holds_for_all.
Qed.

Lemma issue_comment_follows clock raw :
  nullish raw = false ->
  exists r, Jira.normalizeCustomComment clock raw = Normal r /\
            Forall (follows_aliases raw r) (issue_comment_required clock).
Proof.
  intros H. eexists. split.
  - unfold Jira.normalizeCustomComment. eval_literal raw. reflexivity.
  - holds_for_all.
Qed.

Lemma project_follows raw :
  nullish raw = false ->
  exists r, Jira.normalizeCustomProject raw = Normal r /\
            Forall (follows_aliases raw r) project_required.
Proof.
  intros H. eexists. split.
  - unfold Jira.normalizeCustomProject. eval_literal raw. reflexivity.
  - holds_for_all.
Qed.

Lemma page_follows clock raw :
  nullish raw = false -> page_ok raw ->
  exists r, Confluence.normalizeCustomPage clock raw = Normal r /\
            Forall (follows_aliases raw r) (page_required clock).
Proof.
  intros H [Hs [s Hp]]. eexists. split.
  - unfold Confluence.normalizeCustomPage. eval_literal raw. reflexivity.
  - holds_for_all.
Qed.

Lemma space_follows raw :
  nullish raw = false -> space_ok raw ->
  exists r, Confluence.normalizeCustomSpace raw = Normal r /\
            Forall (follows_aliases raw r) space_required.
Proof.
  intros H [s Hp]. eexists. split.
  - unfold Confluence.normalizeCustomSpace. eval_literal raw. reflexivity.
  - holds_for_all.
Qed.

Lemma page_comment_follows clock raw :
  nullish raw = false ->
  exists r, Confluence.normalizeCustomComment clock raw = Normal r /\
            Forall (follows_aliases raw r) (page_comment_required clock).
Proof.
  intros H. eexists. split.
  - unfold Confluence.normalizeCustomComment. eval_literal raw. reflexivity.
  - holds_for_all.
Qed.

(** ** Defaults and alias priority *)

Lemma first_truthy_defined raw keys d :
  d <> JUndefined -> first_truthy raw keys d <> JUndefined.
Proof.
  intros Hd. induction keys as [ | k keys IH]; simpl; [exact Hd | ].
  now apply jor_defined.
Qed.

Lemma first_truthy_lacking raw keys d :
  Forall (fun k => prop raw k = JUndefined) keys -> first_truthy raw keys d = d.
Proof.
  induction 1 as [ | k keys Hk _ IH]; simpl; [reflexivity | ].
  rewrite Hk. exact IH.
Qed.



Definition has_default (a : Attribute) : Prop := default a <> JUndefined.

Lemma follows_defaulted raw r table :
  Forall has_default table ->
  Forall (follows_aliases raw r) table ->
  Forall (defaulted raw r) table.
Proof.
  induction 1 as [ | a table Ha _ IH]; intros Hf; [constructor | ].
  inversion Hf as [ | ? ? Hfa Hft]; subst. constructor; [ | now apply IH].
  unfold defaulted. rewrite Hfa. split.
  - now apply first_truthy_defined.
  - apply first_truthy_lacking.
Qed.

Ltac all_have_default :=
  repeat (constructor; [discriminate | ]); constructor.

Lemma issue_defaults clock : Forall has_default (issue_required clock).
Proof. all_have_default. Qed.
Lemma issue_comment_defaults clock : Forall has_default (issue_comment_required clock).
Proof. all_have_default. Qed.
Lemma project_defaults : Forall has_default project_required.
Proof. all_have_default. Qed.
Lemma page_defaults clock : Forall has_default (page_required clock).
Proof. all_have_default. Qed.
Lemma space_defaults : Forall has_default space_required.
Proof. all_have_default. Qed.
Lemma page_comment_defaults clock : Forall has_default (page_comment_required clock).
Proof. all_have_default. Qed.

Definition sample_clock : Clock := fun _ => "2024-05-01T12:00:00.000Z".

(** C1, as stated, fails: an issue normalized from the empty object has
    no [description], [assignee], [reporter] or [priority]. *)
Lemma issue_of_empty_lacks_optional_fields :
  exists r, Jira.normalizeCustomIssue sample_clock (JObj []) = Normal r /\
            field r ["fields"; "description"] = JUndefined /\
            field r ["fields"; "assignee"] = JUndefined /\
            field r ["fields"; "reporter"] = JUndefined /\
            field r ["fields"; "priority"] = JUndefined.
Proof. eexists. split; [vm_compute; reflexivity | ]. repeat split. Qed.

(** C1, amended. Every normalizer returns on every raw value other than
    [null] and [undefined] (the page and space normalizers: where their
    reads and their link do not throw), and every attribute its
    canonical type requires is then defined, and is the default when the
    raw object has none of the attribute's aliases. *)
Theorem required_fields_defaulted clock raw :
  nullish raw = false ->
  (exists r, Jira.normalizeCustomIssue clock raw = Normal r /\
             Forall (defaulted raw r) (issue_required clock)) /\
  (exists r, Jira.normalizeCustomComment clock raw = Normal r /\
             Forall (defaulted raw r) (issue_comment_required clock)) /\
  (exists r, Jira.normalizeCustomProject raw = Normal r /\
             Forall (defaulted raw r) project_required) /\
  (page_ok raw ->
   exists r, Confluence.normalizeCustomPage clock raw = Normal r /\
             Forall (defaulted raw r) (page_required clock)) /\
  (space_ok raw ->
   exists r, Confluence.normalizeCustomSpace raw = Normal r /\
             Forall (defaulted raw r) space_required) /\
  (exists r, Confluence.normalizeCustomComment clock raw = Normal r /\
             Forall (defaulted raw r) (page_comment_required clock)).
Proof.
  intros H. repeat split.
  - destruct (issue_follows clock raw H) as (r & Hr & Hf).
    exists r. split; [exact Hr | ].
    apply follows_defaulted; [apply issue_defaults | ].
    now inversion Hf.
  - destruct (issue_comment_follows clock raw H) as (r & Hr & Hf).
    exists r. split; [exact Hr | ].
    apply follows_defaulted; [apply issue_comment_defaults | exact Hf].
  - destruct (project_follows raw H) as (r & Hr & Hf).
    exists r. split; [exact Hr | ].
    apply follows_defaulted; [apply project_defaults | exact Hf].
  - intros Hok. destruct (page_follows clock raw H Hok) as (r & Hr & Hf).
    exists r. split; [exact Hr | ].
    apply follows_defaulted; [apply page_defaults | exact Hf].
  - intros Hok. destruct (space_follows raw H Hok) as (r & Hr & Hf).
    exists r. split; [exact Hr | ].
    apply follows_defaulted; [apply space_defaults | exact Hf].
  - destruct (page_comment_follows clock raw H) as (r & Hr & Hf).
    exists r. split; [exact Hr | ].
    apply follows_defaulted; [apply page_comment_defaults | exact Hf].
Qed.

Definition sample_issue : JsVal :=
  JObj [("issue_id", JNum 7); ("title", JStr "Fix login"); ("state", JStr "open")].

Lemma required_fields_defaulted_witness :
  nullish sample_issue = false /\
  exists r, Jira.normalizeCustomIssue sample_clock sample_issue = Normal r /\
            Forall (defaulted sample_issue r) (issue_required sample_clock).
Proof.
  split; [reflexivity | ].
  exact (proj1 (required_fields_defaulted sample_clock sample_issue eq_refl)).
Defined.





(** ** Normalizing a canonical entity again *)

Lemma jor_default_again a d : jor (jor a d) d = jor a d.
Proof.
  unfold jor. destruct (truthy a) eqn:E; [now rewrite E | now destruct (truthy d)].
Qed.

Lemma jor_chain_again a b d :
  jor (jor a (jor b d)) d = jor a (jor b d).
Proof.
  unfold jor. destruct (truthy a) eqn:Ea; rewrite ?Ea; [reflexivity | ].
  destruct (truthy b) eqn:Eb; rewrite ?Eb; [reflexivity | ].
  now destruct (truthy d).
Qed.

(** The identifier printed into the [self] link of a page can be printed
    again from the normalized page. *)
Lemma printable_again a b :
  printable (jor a b) -> printable (jor (jor a (jor b (JStr ""))) JUndefined).
Proof.
  unfold jor. intros Hp.
  destruct (truthy a) eqn:Ea; rewrite ?Ea; [exact Hp | ].
  destruct (truthy b) eqn:Eb; rewrite ?Eb; [exact Hp | ].
  simpl. now exists "undefined".
Qed.

Definition titled_issue : JsVal := JObj [("title", JStr "T")].

(** C3, as stated, fails: the summary of [{title: "T"}] is ["T"] after
    one normalization and [""] after two; and a page normalized from the
    empty object is not a fixed point of the page normalizer. *)
Lemma normalizing_twice_differs :
  (exists n nn,
     Jira.normalizeCustomIssue sample_clock titled_issue = Normal n /\
     Jira.normalizeCustomIssue sample_clock n = Normal nn /\
     field n ["fields"; "summary"] = JStr "T" /\
     field nn ["fields"; "summary"] = JStr "" /\
     nn <> n) /\
  (exists n nn,
     Confluence.normalizeCustomPage sample_clock (JObj []) = Normal n /\
     Confluence.normalizeCustomPage sample_clock n = Normal nn /\
     field n ["body"; "storage"; "value"] = JStr "" /\
     field nn ["body"; "storage"; "value"] = field n ["body"] /\
     nn <> n).
Proof.
  split; eexists; eexists.
  - split; [vm_compute; reflexivity | ].
    split; [vm_compute; reflexivity | ].
    repeat split. discriminate.
  - split; [vm_compute; reflexivity | ].
    split; [vm_compute; reflexivity | ].
    repeat split. discriminate.
Qed.

(** C3, amended. Normalizing a canonical entity again returns, and keeps
    the attributes whose canonical name is their own first alias: the
    [id] of an issue; the [id], [title], [type], [status] and [space] of
    a page. *)
Theorem renormalizing_keeps_own_aliases clock clock' raw :
  nullish raw = false ->
  (exists n, Jira.normalizeCustomIssue clock raw = Normal n /\
   exists nn, Jira.normalizeCustomIssue clock' n = Normal nn /\
              field nn ["id"] = field n ["id"]) /\
  (page_ok raw ->
   exists n, Confluence.normalizeCustomPage clock raw = Normal n /\
   exists nn, Confluence.normalizeCustomPage clock' n = Normal nn /\
              field nn ["id"] = field n ["id"] /\
              field nn ["title"] = field n ["title"] /\
              field nn ["type"] = field n ["type"] /\
              field nn ["status"] = field n ["status"] /\
              field nn ["space"] = field n ["space"]).
Proof.
  intros H. split.
  - eexists. split.
    { unfold Jira.normalizeCustomIssue. eval_literal raw. reflexivity. }
    match goal with
    | |- context [Jira.normalizeCustomIssue clock' ?t] => set (n := t)
    end.
    eexists. split.
    { unfold Jira.normalizeCustomIssue. eval_literal n. reflexivity. }
    exact (jor_chain_again _ _ _).
  - intros [Hs [s Hp]]. eexists. split.
    { unfold Confluence.normalizeCustomPage. eval_literal raw. reflexivity. }
    match goal with
    | |- context [Confluence.normalizeCustomPage clock' ?t] => set (n := t)
    end.
    assert (Hs' : prop n "space" = JNull ->
                  truthy (prop n "space_key") = false) by reflexivity.
    destruct (printable_again (prop raw "id") (prop raw "page_id"))
      as [s' Hp']; [now exists s | ].
    change (toString (jor (prop n "id") (prop n "page_id")) = Normal s') in Hp'.
    eexists. split.
    { unfold Confluence.normalizeCustomPage. eval_literal n. reflexivity. }
    split; [exact (jor_chain_again _ _ _) | ].
    split; [exact (jor_chain_again _ _ _) | ].
    split; [reflexivity | ].
    split; [exact (jor_default_again _ _) | ].
    cbn. unfold jor. simpl.
    destruct (truthy (if truthy (prop raw "space") then prop raw "space"
                      else prop raw "space_key")); reflexivity.
Qed.

Lemma renormalizing_keeps_own_aliases_witness :
  nullish sample_issue = false /\
  exists n, Jira.normalizeCustomIssue sample_clock sample_issue = Normal n /\
  exists nn, Jira.normalizeCustomIssue sample_clock n = Normal nn /\
             field nn ["id"] = field n ["id"].
Proof.
  split; [reflexivity | ].
  exact (proj1 (renormalizing_keeps_own_aliases
                  sample_clock sample_clock sample_issue eq_refl)).
Defined.

(** ** Nested fields given as plain strings *)

(** C7, as stated, fails for the empty string: [{assignee: ""}] is
    normalized to an issue without assignee, not to one whose assignee
    has the display name [""]. *)
Lemma empty_assignee_not_wrapped :
  exists r,
    Jira.normalizeCustomIssue sample_clock (JObj [("assignee", JStr "")])
      = Normal r /\
    field r ["fields"; "assignee"] = JUndefined /\
    field r ["fields"; "assignee"; "displayName"] <> JStr "".
Proof.
  eexists. split; [vm_compute; reflexivity | ]. split; [reflexivity | discriminate].
Qed.

(** C7, amended. A raw issue whose [assignee] is a non-empty string [s]
    is normalized to an issue whose assignee has the display name [s]
    and the e-mail address [""]; a raw page whose [space] is a non-empty
    string [s] is normalized to a page whose space has [s] as key and as
    name. *)
Theorem string_field_wrapped clock s :
  s <> "" ->
  (forall props,
     lookup_prop "assignee" props = JStr s ->
     exists r, Jira.normalizeCustomIssue clock (JObj props) = Normal r /\
               field r ["fields"; "assignee"; "displayName"] = JStr s /\
               field r ["fields"; "assignee"; "emailAddress"] = JStr "") /\
  (forall props,
     lookup_prop "space" props = JStr s ->
     printable (jor (lookup_prop "id" props) (lookup_prop "page_id" props)) ->
     exists r, Confluence.normalizeCustomPage clock (JObj props) = Normal r /\
               field r ["space"; "key"] = JStr s /\
               field r ["space"; "name"] = JStr s).
Proof.
  intros Hs. destruct s as [ | c s]; [congruence | ]. split.
  - intros props Ha. eexists. split.
    { unfold Jira.normalizeCustomIssue.
      eval_literal (JObj props). reflexivity. }
    cbn. rewrite Ha. now split.
  - intros props Ha [t Hp].
    assert (Hnull : prop (JObj props) "space" = JNull ->
                    truthy (prop (JObj props) "space_key") = false).
    { cbn. rewrite Ha. discriminate. }
    change (toString (jor (prop (JObj props) "id") (prop (JObj props) "page_id"))
            = Normal t) in Hp.
    eexists. split.
    { unfold Confluence.normalizeCustomPage.
      eval_literal (JObj props). reflexivity. }
    cbn. rewrite Ha. now split.
Qed.

Lemma string_field_wrapped_witness :
  "bob" <> "" /\
  exists r,
    Jira.normalizeCustomIssue sample_clock (JObj [("assignee", JStr "bob")])
      = Normal r /\
    field r ["fields"; "assignee"; "displayName"] = JStr "bob" /\
    field r ["fields"; "assignee"; "emailAddress"] = JStr "".
Proof.
  assert (H : "bob" <> "") by discriminate.
  split; [exact H | ].
  exact (proj1 (string_field_wrapped sample_clock "bob" H)
           [("assignee", JStr "bob")] eq_refl).
Defined.

(** ** Search results *)

Definition sample_clocks : nat -> Clock := fun _ => sample_clock.

(** C8, as stated, fails for the issue search: with no issue in the
    upstream array, [total] is still the upstream [total]. *)
Lemma empty_search_keeps_upstream_total :
  Jira.normalizeCustomSearchResult sample_clocks
    (JObj [("issues", JArr []); ("total", JNum 5)]) 25 0
  = Normal (JObj [("issues", JArr []); ("total", JNum 5);
                  ("maxResults", JNum 25); ("startAt", JNum 0)]).
Proof. vm_compute. reflexivity. Qed.

(** C8, amended. When the array the normalizer selects is empty, it
    returns an empty sequence without raising; the [size] of a page
    search is [0], and the [total] of an issue search is the upstream
    [total] when that is truthy, and [0] otherwise. *)
Theorem empty_search_result clocks raw limit start :
  nullish raw = false ->
  (first_truthy raw ["issues"; "data"; "results"] (JArr []) = JArr [] ->
   Jira.normalizeCustomSearchResult clocks raw limit start
   = Normal (JObj [("issues", JArr []);
                   ("total", jor (prop raw "total") (JNum 0));
                   ("maxResults", JNum limit); ("startAt", JNum start)])) /\
  (first_truthy raw ["pages"; "data"; "results"] (JArr []) = JArr [] ->
   Confluence.normalizeCustomSearchResult clocks raw limit start
   = Normal (JObj [("results", JArr []); ("start", JNum start);
                   ("limit", JNum limit); ("size", JNum 0)])).
Proof.
  intros H. split; intros He; cbn [first_truthy fold_right] in He.
  - unfold Jira.normalizeCustomSearchResult. eval_literal raw.
    rewrite He. cbn [array_map map_from bind]. eval_literal raw. reflexivity.
  - unfold Confluence.normalizeCustomSearchResult. eval_literal raw.
    rewrite He. cbn [array_map map_from bind]. eval_literal raw. reflexivity.
Qed.

Lemma empty_search_result_witness :
  nullish (JObj [("data", JArr [])]) = false /\
  Confluence.normalizeCustomSearchResult sample_clocks
    (JObj [("data", JArr [])]) 25 0
  = Normal (JObj [("results", JArr []); ("start", JNum 0);
                  ("limit", JNum 25); ("size", JNum 0)]).
Proof.
  split; [reflexivity | ].
  exact (proj2 (empty_search_result sample_clocks (JObj [("data", JArr [])])
                  25 0 eq_refl) eq_refl).
Defined.

(** ** Lookups that find nothing *)

Definition sample_config : Confluence.Config := Confluence.mkConfig true "v1" 25.

(** C9, as stated, fails for [getSpace]: when the upstream lists no
    space, it raises. *)
Lemma getSpace_raises_when_not_found :
  Confluence.getSpace sample_config
    (fun _ => Normal (JObj [("spaces", JArr [])])) "DEV"
  = Throw (Error "Failed to get space DEV: Space DEV not found").
Proof. vm_compute. reflexivity. Qed.

(** C9, amended. When the upstream answers with an empty result set,
    [getPageByTitle] returns [null] and does not raise, against the
    custom API and against the standard one; [getSpace] against the
    custom API raises the error [Space ... not found], wrapped as every
    failure of the operation is. *)
Theorem lookup_of_nothing config http clocks string_gt_zero
  spaceKey title expand data :
  nullish data = false ->
  (Confluence.useCustomApi config = true ->
   http (Confluence.mkRequest "GET"
           ("/" +:+ Confluence.customApiVersion config +:+ "/pages/search")
           [("q", JStr title); ("space", JStr spaceKey); ("limit", JNum 1)])
     = Normal data ->
   first_truthy data ["pages"; "data"; "results"] (JArr []) = JArr [] ->
   Confluence.getPageByTitle config http clocks string_gt_zero
     spaceKey title expand = Normal JNull) /\
  (Confluence.useCustomApi config = false ->
   http (Confluence.mkRequest "GET" "/content"
           [("spaceKey", JStr spaceKey); ("title", JStr title);
            ("expand", JStr (String.concat "," expand))])
     = Normal data ->
   first_truthy data ["results"] (JArr []) = JArr [] ->
   Confluence.getPageByTitle config http clocks string_gt_zero
     spaceKey title expand = Normal JNull) /\
  (Confluence.useCustomApi config = true ->
   http (Confluence.mkRequest "GET"
           ("/" +:+ Confluence.customApiVersion config +:+ "/spaces")
           [("limit", JNum (Confluence.maxResultsDefault config))])
     = Normal data ->
   first_truthy data ["spaces"; "data"] (JArr []) = JArr [] ->
   Confluence.getSpace config http spaceKey
   = Throw (Error (("Failed to get space " +:+ spaceKey +:+ ": ")
                   +:+ ("Space " +:+ spaceKey +:+ " not found")))).
Proof.
  intros H. repeat split; intros Hc Hh He; cbn [first_truthy fold_right] in He.
  - unfold Confluence.getPageByTitle. rewrite Hc, Hh. cbn [bind].
    eval_literal data. rewrite He. cbn [bind]. eval_literal (JArr []).
    reflexivity.
  - unfold Confluence.getPageByTitle. rewrite Hc, Hh. cbn [bind].
    eval_literal data. rewrite He. cbn [bind]. eval_literal (JArr []).
    reflexivity.
  - unfold Confluence.getSpace, Confluence.getSpaces. rewrite Hc, Hh. cbn [bind].
    eval_literal data. rewrite He. reflexivity.
Qed.

Lemma lookup_of_nothing_witness :
  nullish (JObj [("pages", JArr [])]) = false /\
  Confluence.getPageByTitle sample_config
    (fun _ => Normal (JObj [("pages", JArr [])])) sample_clocks (fun _ => false)
    "DEV" "Home" ["body.storage"; "version"] = Normal JNull.
Proof.
  split; [reflexivity | ].
  exact (proj1 (lookup_of_nothing sample_config
                  (fun _ => Normal (JObj [("pages", JArr [])]))
                  sample_clocks (fun _ => false) "DEV" "Home"
                  ["body.storage"; "version"] (JObj [("pages", JArr [])])
                  eq_refl) eq_refl eq_refl eq_refl).
Defined.

(** ** Raw values that are not objects *)

Definition default_issue (clock : Clock) : JsVal :=
  JObj [("id", JStr ""); ("key", JStr "");
        ("fields", JObj [
           ("summary", JStr ""); ("description", JUndefined);
           ("status", JObj [("name", JStr "Unknown"); ("id", JStr "1")]);
           ("assignee", JUndefined); ("reporter", JUndefined);
           ("created", JStr (clock 0%nat)); ("updated", JStr (clock 1%nat));
           ("priority", JUndefined);
           ("issuetype", JObj [("name", JStr "Task"); ("id", JStr "1")]);
           ("project", JObj [("key", JStr ""); ("name", JStr "")]);
           ("labels", JArr [])])].

Definition default_page (clock : Clock) : JsVal :=
  JObj [("id", JStr ""); ("title", JStr ""); ("type", JStr "page");
        ("status", JStr "current"); ("space", JUndefined);
        ("body", JObj [
           ("storage", JObj [("value", JStr ""); ("representation", JStr "storage")]);
           ("view", JObj [("value", JStr ""); ("representation", JStr "view")])]);
        ("version", JObj [
           ("number", JNum 1); ("when", JStr (clock 0%nat));
           ("by", JObj [("displayName", JStr "Unknown"); ("email", JStr "")])]);
        ("history", JObj [
           ("createdDate", JStr (clock 1%nat));
           ("createdBy", JObj [("displayName", JStr "Unknown"); ("email", JStr "")])]);
        ("_links", JObj [("webui", JStr "");
                         ("self", JStr "/rest/api/content/undefined")])].

(** The page normalizer reads [space.key] of a [null] space that a truthy
    [space_key] lets through. *)
Lemma page_throws_on_null_space clock raw :
  nullish raw = false ->
  prop raw "space" = JNull -> truthy (prop raw "space_key") = true ->
  Confluence.normalizeCustomPage clock raw
  = Throw (TypeError "Cannot read properties of null (reading 'key')").
Proof.
  intros H Hs Hk. unfold Confluence.normalizeCustomPage, now, val.
  rewrite ?(dot_normal raw) by exact H. rewrite !or_else_normal.
  rewrite Hs. unfold object at 1. cbn [properties bind].
  unfold cond at 1. cbn [bind].
  rewrite !(jor_falsy JNull) by reflexivity. rewrite Hk. reflexivity.
Qed.

Lemma null_space_decided raw :
  (prop raw "space" = JNull /\ truthy (prop raw "space_key") = true) \/
  (prop raw "space" = JNull -> truthy (prop raw "space_key") = false).
Proof.
  destruct (truthy (prop raw "space_key")); [ | now right].
  destruct (prop raw "space"); try (right; discriminate). now left.
Qed.

(** An identifier that cannot be converted to a string stops the [self]
    link, and the page normalizer with it. *)
Lemma page_throws_on_unprintable clock raw e :
  nullish raw = false ->
  toString (jor (prop raw "id") (prop raw "page_id")) = Throw e ->
  exists e', Confluence.normalizeCustomPage clock raw = Throw e'.
Proof.
  intros H He.
  destruct (null_space_decided raw) as [[Hs Hk] | Hs].
  - eexists. now apply page_throws_on_null_space.
  - eexists. unfold Confluence.normalizeCustomPage. eval_literal raw.
    unfold template, object. cbn [properties bind]. rewrite He. reflexivity.
Qed.

(** C10, as stated, fails in its "only": a number and a boolean are no
    objects, and the normalizers return the all-defaults entity on them;
    and an actual object makes the page normalizer throw, when its
    [space] is [null] and its [space_key] is truthy. *)
Lemma normalizers_keep_primitives :
  Jira.normalizeCustomIssue sample_clock (JNum 5)
    = Normal (default_issue sample_clock) /\
  Confluence.normalizeCustomPage sample_clock (JBool true)
    = Normal (default_page sample_clock) /\
  Confluence.normalizeCustomPage sample_clock
    (JObj [("space", JNull); ("space_key", JStr "DEV")])
    = Throw (TypeError "Cannot read properties of null (reading 'key')").
Proof. repeat split; reflexivity. Qed.

(** C10, amended. On [null] and on [undefined] the issue and the page
    normalizer throw the TypeError of their first property read, [id].
    The issue normalizer returns on every other raw value, object or
    not.  The page normalizer returns on exactly the other raw values
    whose [space] is not [null] beside a truthy [space_key] and whose
    [id || page_id] converts to a string; with [space] [null] and
    [space_key] truthy it throws the TypeError of reading [key] of
    [null].  On a raw value that has none of the properties read (the
    empty object, a number, a boolean) both return the entity made of
    the defaults. *)
Theorem normalizers_throw_exactly clock raw :
  (nullish raw = true ->
   Jira.normalizeCustomIssue clock raw
     = Throw (TypeError ("Cannot read properties of " +:+ describe raw
                         +:+ " (reading 'id')")) /\
   Confluence.normalizeCustomPage clock raw
     = Throw (TypeError ("Cannot read properties of " +:+ describe raw
                         +:+ " (reading 'id')"))) /\
  ((exists r, Jira.normalizeCustomIssue clock raw = Normal r)
   <-> nullish raw = false) /\
  ((exists r, Confluence.normalizeCustomPage clock raw = Normal r)
   <-> nullish raw = false /\ page_ok raw) /\
  (nullish raw = false -> prop raw "space" = JNull ->
   truthy (prop raw "space_key") = true ->
   Confluence.normalizeCustomPage clock raw
     = Throw (TypeError "Cannot read properties of null (reading 'key')")) /\
  (nullish raw = false -> (forall k, prop raw k = JUndefined) ->
   Jira.normalizeCustomIssue clock raw = Normal (default_issue clock) /\
   Confluence.normalizeCustomPage clock raw = Normal (default_page clock)).
Proof.
  assert (Hnull : nullish raw = true ->
    Jira.normalizeCustomIssue clock raw
      = Throw (TypeError ("Cannot read properties of " +:+ describe raw
                          +:+ " (reading 'id')")) /\
    Confluence.normalizeCustomPage clock raw
      = Throw (TypeError ("Cannot read properties of " +:+ describe raw
                          +:+ " (reading 'id')"))).
  { destruct raw; intros Hn; try discriminate Hn; split; reflexivity. }
  split; [exact Hnull | ].
  split; [ | split; [ | split]].
  - split.
    + intros [r Hr]. destruct (nullish raw) eqn:Hn; [ | reflexivity].
      destruct (Hnull eq_refl) as [Hi _]. congruence.
    + intros Hn. destruct (issue_follows clock raw Hn) as (r & Hr & _). eauto.
  - split.
    + intros [r Hr]. 
      assert (Hn : nullish raw = false).
      { destruct (nullish raw) eqn:Hn; [ | reflexivity].
        destruct (Hnull eq_refl) as [_ Hp]. congruence. }
      split; [exact Hn | ]. split.
      * destruct (null_space_decided raw) as [[Hs Hk] | Hs]; [ | exact Hs].
        rewrite (page_throws_on_null_space clock raw Hn Hs Hk) in Hr.
        discriminate Hr.
      * destruct (toString (jor (prop raw "id") (prop raw "page_id")))
          as [s | e] eqn:E; [now exists s | ].
        destruct (page_throws_on_unprintable clock raw e Hn E) as [e' He'].
        congruence.
    + intros [Hn Hok].
      destruct (page_follows clock raw Hn Hok) as (r & Hr & _). eauto.
  - apply page_throws_on_null_space.
  - intros Hn Hall.
    assert (Hs : prop raw "space" = JNull -> truthy (prop raw "space_key") = false)
      by (now rewrite !Hall).
    assert (Hp : toString (jor (prop raw "id") (prop raw "page_id"))
                 = Normal "undefined") by (now rewrite !Hall).
    split.
    + unfold Jira.normalizeCustomIssue. eval_literal raw. now rewrite !Hall.
    + unfold Confluence.normalizeCustomPage. eval_literal raw. now rewrite !Hall.
Qed.

Lemma normalizers_throw_exactly_witness :
  nullish (JNum 5) = false /\
  (forall k, prop (JNum 5) k = JUndefined) /\
  Jira.normalizeCustomIssue sample_clock (JNum 5)
    = Normal (default_issue sample_clock) /\
  Confluence.normalizeCustomPage sample_clock (JNum 5)
    = Normal (default_page sample_clock).
Proof.
  split; [reflexivity | split; [intros k; reflexivity | ]].
  apply (proj2 (proj2 (proj2 (proj2
           (normalizers_throw_exactly sample_clock (JNum 5)))))).
  - reflexivity.
  - intros k. reflexivity.
Defined.

(** ** The pattern matcher on small inputs *)

(** Greedy repetition gives characters back: [a*ab] matches all of
    [aaab]. *)
Example star_backtracks :
  str_match false (seq [Star (Lit "a"); Lit "ab"]) "aaab"
  = Some [(O, "aaab")].
Proof. reflexivity. Qed.

(** The leftmost match wins, and a group holds what it matched. *)
Example leftmost_clause :
  str_match true (Jira.clause "status") "Status = Open or status = Closed"
  = Some [(O, "Status = Open"); (1%nat, "Open")].
Proof. vm_compute. reflexivity. Qed.

(** A keyword inside a word is not a keyword. *)
Example keywords_are_whole_words :
  replace_all true Confluence.keywords [Text " "] "band AND Android or_not"
  = "band   Android or_not".
Proof. vm_compute. reflexivity. Qed.

(** An unquoted value runs to the next quote or to the end of the
    query. *)
Example unquoted_value_is_greedy :
  replace_all true Confluence.field_clause [Ref 2] "space = DEV type = page"
  = "DEV type = page".
Proof. vm_compute. reflexivity. Qed.

Example strip_both_quotes :
  replace_all false Jira.quotes [Text ""] ("'" +:+ String dquote "To Do'")
  = "To Do".
Proof. vm_compute. reflexivity. Qed.

(** ** Capture groups of a successful match *)

(** [defines n r]: every match of [r] sets group [n]. *)
Fixpoint defines (n : nat) (r : Regex) : bool :=
  match r with
  | Group m r' => (m =? n)%nat || defines n r'
  | Seq r1 r2 => defines n r1 || defines n r2
  | Alt r1 r2 => defines n r1 && defines n r2
  | _ => false
  end.

Definition captured (n : nat) (st : MState) : Prop :=
  group n (caps st) <> None.

(** What a matcher guarantees to its continuation about group [n]. *)
Definition passes (n : nat) (sets : bool)
  (m : MState -> Cont -> option MState) : Prop :=
  forall st k res, m st k = Some res ->
    exists st', k st' = Some res /\
                (sets = true \/ captured n st -> captured n st').

Lemma skip_passes n (k : Cont) st res :
  k st = Some res ->
  exists st', k st' = Some res /\ (false = true \/ captured n st -> captured n st').
Proof.
  intros H. exists st. split; [exact H | ].
  intros [H' | H']; [discriminate | exact H'].
Qed.

Lemma one_passes n p : passes n false (one p).
Proof.
  intros st k res. unfold one.
  destruct (rest st) as [ | c tl]; [discriminate | ].
  destruct (p c); [ | discriminate].
  intros H. eexists. split; [exact H | ].
  intros [H' | H']; [discriminate | exact H'].
Qed.

Lemma literal_passes n i s : passes n false (literal i s).
Proof.
  induction s as [ | a s IH]; intros st k res; simpl.
  - apply skip_passes.
  - intros H. apply (one_passes n) in H. destruct H as (st1 & H1 & C1).
    apply IH in H1. destruct H1 as (st2 & H2 & C2).
    exists st2. split; [exact H2 | ].
    intros [H' | H']; [discriminate | ]. apply C2. right. apply C1. now right.
Qed.

Lemma star_loop_passes n step fuel :
  passes n false step -> passes n false (star_loop step fuel).
Proof.
  intros Hstep. induction fuel as [ | fuel IH]; intros st k res; simpl.
  - apply skip_passes.
  - destruct (step st _) as [res' | ] eqn:E.
    + intros [= <-]. apply Hstep in E. destruct E as (st1 & H1 & C1).
      destruct (progress st st1); [ | discriminate].
      apply IH in H1. destruct H1 as (st2 & H2 & C2).
      exists st2. split; [exact H2 | ].
      intros [H' | H']; [discriminate | ]. apply C2. right. apply C1. now right.
    + apply skip_passes.
Qed.

Lemma rmatch_passes n i r : passes n (defines n r) (rmatch i r).
Proof.
  induction r as [ | s | | | cs | cs | | r1 IH1 r2 IH2 | r1 IH1 r2 IH2
                 | r IH | r IH | m r IH]; intros st k res; simpl.
  - apply skip_passes.
  - apply literal_passes.
  - apply one_passes.
  - apply one_passes.
  - apply one_passes.
  - apply one_passes.
  - destruct (at_word_boundary st); [ | discriminate]. apply skip_passes.
  - intros H. apply IH1 in H. destruct H as (st1 & H1 & C1).
    apply IH2 in H1. destruct H1 as (st2 & H2 & C2).
    exists st2. split; [exact H2 | ].
    intros [H' | H'].
    + apply orb_true_iff in H'. destruct H' as [H' | H'].
      * apply C2. right. apply C1. now left.
      * apply C2. now left.
    + apply C2. right. apply C1. now right.
  - destruct (rmatch i r1 st k) as [res' | ] eqn:E.
    + intros [= <-]. apply IH1 in E. destruct E as (st1 & H1 & C1).
      exists st1. split; [exact H1 | ].
      intros [H' | H']; apply C1; [left | now right].
      apply andb_true_iff in H'. tauto.
    + intros H. apply IH2 in H. destruct H as (st1 & H1 & C1).
      exists st1. split; [exact H1 | ].
      intros [H' | H']; apply C1; [left | now right].
      apply andb_true_iff in H'. tauto.
  - apply star_loop_passes. intros st0 k0 res0 H.
    apply IH in H. destruct H as (st1 & H1 & C1).
    exists st1. split; [exact H1 | ].
    intros [H' | H']; [discriminate | ]. apply C1. now right.
  - destruct (rmatch i r st _) as [res' | ] eqn:E.
    + intros [= <-]. apply IH in E. destruct E as (st1 & H1 & C1).
      destruct (progress st st1); [ | discriminate].
      exists st1. split; [exact H1 | ].
      intros [H' | H']; [discriminate | ]. apply C1. now right.
    + apply skip_passes.
  - intros H. apply IH in H. destruct H as (st1 & H1 & C1).
    eexists. split; [exact H1 | ].
    unfold captured, group. simpl.
    destruct (m =? n)%nat eqn:E; [discriminate | ].
    simpl. intros [H' | H']; apply C1; [now left | now right].
Qed.

Lemma match_at_group n i r p s m :
  defines n r = true -> match_at i r p s = Some m -> group n m <> None.
Proof.
  unfold match_at. intros D H.
  destruct (rmatch i (Group 0 r) _ Some) as [res | ] eqn:E; [ | discriminate].
  injection H as <-.
  apply (rmatch_passes n) in E. destruct E as (st' & [= ->] & C).
  apply C. left. simpl. rewrite D. apply orb_true_r.
Qed.

Lemma search_group n i r p s m :
  defines n r = true -> search i r p s = Some m -> group n m <> None.
Proof.
  intros D. revert p. induction s as [ | c tl IH]; intros p; simpl.
  - destruct (match_at i r p []) eqn:E; [ | discriminate].
    intros [= <-]. eapply match_at_group; eassumption.
  - destruct (match_at i r p (c :: tl)) eqn:E.
    + intros [= <-]. eapply match_at_group; eassumption.
    + apply IH.
Qed.

Lemma clause_group f jql m :
  str_match true (Jira.clause f) jql = Some m ->
  exists g, group_string m 1 = Normal g.
Proof.
  intros H. apply (search_group 1) in H; [ | reflexivity].
  unfold group_string. destruct (group 1 m) as [g | ]; [eauto | congruence].
Qed.

(** ** The issue query degrader *)

Definition quoted (s : string) : string :=
  String dquote s +:+ String dquote "".

(** No single or double quote occurs in [s]. *)
Definition quote_free (s : string) : Prop :=
  Forall (fun c => c <> squote /\ c <> dquote) (list_ascii_of_string s).

Lemma consumed_one st c tl :
  rest st = c :: tl -> consumed st (advance st c tl) = String c "".
Proof.
  unfold consumed, advance. simpl. intros ->. simpl List.length.
  replace (S (List.length tl) - List.length tl)%nat with 1%nat by lia.
  reflexivity.
Qed.

Lemma match_at_class cs p c tl :
  match_at false (OneOf cs) p (c :: tl) =
  if member cs c then Some [(O, String c "")] else None.
Proof.
  unfold match_at. simpl. unfold one. simpl.
  destruct (member cs c); [ | reflexivity].
  simpl. now rewrite consumed_one.
Qed.

(** Replacing every character of a class by nothing filters the class out. *)
Lemma strip_class cs s p :
  replace_from false (OneOf cs) [Text ""] p s 0 =
  List.filter (fun c => negb (member cs c)) s.
Proof.
  revert p. induction s as [ | c tl IH]; intros p.
  - reflexivity.
  - cbn [replace_from List.filter]. rewrite match_at_class.
    destruct (member cs c); simpl; now rewrite IH.
Qed.

Lemma member_quotes c :
  member [squote; dquote] c = false -> c <> squote /\ c <> dquote.
Proof.
  unfold member. simpl. intros H.
  apply orb_false_iff in H. destruct H as [H1 H].
  apply orb_false_iff in H. destruct H as [H2 _].
  apply Ascii.eqb_neq in H1, H2. now split.
Qed.

Lemma strip_quotes_free s :
  quote_free (replace_all false Jira.quotes [Text ""] s).
Proof.
  unfold quote_free, replace_all, Jira.quotes.
  rewrite strip_class, list_ascii_of_string_of_list_ascii.
  apply List.Forall_forall. intros c Hc. apply filter_In in Hc.
  destruct Hc as [_ Hc]. apply negb_true_iff in Hc. now apply member_quotes.
Qed.

Lemma strip_keeps_free cs s :
  quote_free s -> quote_free (replace_all false (OneOf cs) [Text ""] s).
Proof.
  unfold quote_free, replace_all.
  rewrite strip_class, list_ascii_of_string_of_list_ascii.
  rewrite !List.Forall_forall. intros H c Hc. apply filter_In in Hc.
  apply H. tauto.
Qed.

Lemma me_free (s : string) :
  quote_free s -> quote_free (if String.eqb s "currentuser()" then "me" else s).
Proof.
  intros H. destruct (String.eqb s "currentuser()"); [ | exact H].
  unfold quote_free. simpl. repeat constructor; discriminate.
Qed.

(** The degrader returns on every query; it sets no key besides
    [project], [status] and [assignee], and its values hold no quote. *)
Lemma parseJqlToFilters_returns jql :
  exists filters : gmap string string,
    Jira.parseJqlToFilters jql = Normal filters /\
    dom filters ⊆ ({[ "project"; "status"; "assignee" ]} : gset string) /\
    forall k v, filters !! k = Some v -> quote_free v.
Proof.
  unfold Jira.parseJqlToFilters.
  destruct (str_match true (Jira.clause "project") jql) as [pm | ] eqn:Ep;
    [destruct (clause_group _ _ _ Ep) as [pg ->] | ];
  (destruct (str_match true (Jira.clause "status") jql) as [sm | ] eqn:Es;
    [destruct (clause_group _ _ _ Es) as [sg ->] | ]);
  (destruct (str_match true (Jira.clause "assignee") jql) as [am | ] eqn:Ea;
    [destruct (clause_group _ _ _ Ea) as [ag ->] | ]);
  cbn [bind]; eexists; (split; [reflexivity | ]);
  (split; [rewrite ?dom_insert_L, ?dom_empty_L; intros x;
           rewrite ?elem_of_union, ?elem_of_singleton, elem_of_empty; tauto | ]);
  intros k v;
  rewrite ?lookup_insert_Some, lookup_empty;
  intuition (subst;
             first [ discriminate
                   | apply strip_quotes_free
                   | apply strip_keeps_free, strip_quotes_free
                   | apply me_free, strip_quotes_free ]).
Qed.

(** C4. The degrader compares the assignee with the lower-case literal
    [currentuser()] but takes it from the query as written, not from
    [jqlLower]: [assignee = currentUser()] keeps [currentUser()], and only
    the all-lower-case spelling is rewritten to [me]. *)
Theorem degrade_currentUser_not_rewritten :
  Jira.parseJqlToFilters "assignee = currentUser()"
    = Normal {[ "assignee" := "currentUser()" ]} /\
  Jira.parseJqlToFilters "assignee = currentUser()"
    <> Normal {[ "assignee" := "me" ]} /\
  Jira.parseJqlToFilters "assignee = currentuser()"
    = Normal {[ "assignee" := "me" ]}.
Proof.
  split; [vm_compute; reflexivity | ].
  split; [ | vm_compute; reflexivity].
  vm_compute. discriminate.
Qed.

(** ** The page query degrader *)

(** The degrader as the specification words it: keywords to spaces,
    clauses to their bare value, then the whitespace-separated tokens
    longer than two characters, joined by single spaces. *)
Fixpoint tokens (cur : list ascii) (s : list ascii) : list string :=
  let flush := match cur with
               | [] => []
               | _ => [string_of_list_ascii (rev cur)]
               end in
  match s with
  | [] => flush
  | c :: tl => if is_space c then flush ++ tokens [] tl
               else tokens (c :: cur) tl
  end.

Definition degrade_page_query_spec (cql : string) : string :=
  let query := replace_all true Confluence.keywords [Text " "] cql in
  let query := replace_all true Confluence.field_clause [Ref 2] query in
  String.concat " "
    (List.filter (fun term => (2 <? String.length term)%nat)
       (tokens [] (list_ascii_of_string query))).

(** What the code computes: [split()] without a separator does not
    tokenize, so the whole rewritten query is kept or dropped as one
    term. *)
Lemma parseCqlToSimpleQuery_whole cql :
  Confluence.parseCqlToSimpleQuery cql =
  let query := replace_all true Confluence.field_clause [Ref 2]
                 (replace_all true Confluence.keywords [Text " "] cql) in
  if (2 <? String.length query)%nat then query else "".
Proof.
  unfold Confluence.parseCqlToSimpleQuery, Confluence.split. simpl.
  now destruct (2 <? String.length _)%nat.
Qed.

(** C6. The code does not tokenize: on every query it returns the
    rewritten query whole when that is longer than two characters, and
    the empty string otherwise.  On [title = "release notes" and ab] it
    returns the rewritten query with its run of spaces and the
    two-character token [ab], where the tokens longer than two characters
    are [release] and [notes]; on [ab cde] it returns [ab cde], not
    [cde]. *)
Theorem parseCqlToSimpleQuery_does_not_tokenize :
  (forall cql,
     Confluence.parseCqlToSimpleQuery cql =
     let query := replace_all true Confluence.field_clause [Ref 2]
                    (replace_all true Confluence.keywords [Text " "] cql) in
     if (2 <? String.length query)%nat then query else "") /\
  Confluence.parseCqlToSimpleQuery
    ("title = " +:+ quoted "release notes" +:+ " and ab")
    = "release notes   ab" /\
  degrade_page_query_spec ("title = " +:+ quoted "release notes" +:+ " and ab")
    = "release notes" /\
  Confluence.parseCqlToSimpleQuery "ab cde" = "ab cde" /\
  degrade_page_query_spec "ab cde" = "cde".
Proof.
  split; [exact parseCqlToSimpleQuery_whole | ].
  repeat split; vm_compute; reflexivity.
Qed.

(** * Further properties of the clients *)

(** ** Mapping a normalizer over an upstream array *)

Lemma map_from_returns f n items :
  (forall i x, In x items -> exists y, f i x = Normal y) ->
  exists ys, map_from f n items = Normal ys /\
             List.length ys = List.length items /\
             forall i x, items !! i = Some x ->
                         exists y, ys !! i = Some y /\ f (n + i)%nat x = Normal y.
Proof.
  revert n. induction items as [ | x tl IH]; intros n Hf.
  - exists []. repeat split. intros i x H. discriminate H.
  - destruct (Hf n x (or_introl eq_refl)) as [y Hy].
    destruct (IH (S n)) as (ys & Hys & Hlen & Hnth).
    { intros i z Hz. apply Hf. now right. }
    exists (y :: ys). simpl. rewrite Hy. simpl. rewrite Hys. simpl.
    split; [reflexivity | ]. split; [now rewrite Hlen | ].
    intros [ | i] z Hz; simpl in Hz.
    + injection Hz as <-. exists y. rewrite Nat.add_0_r. now split.
    + destruct (Hnth i z Hz) as (y' & Hy' & Hf').
      exists y'. split; [exact Hy' | ]. now rewrite Nat.add_succ_r.
Qed.

Lemma map_from_length f n items ys :
  map_from f n items = Normal ys -> List.length ys = List.length items.
Proof.
  revert n ys. induction items as [ | x tl IH]; intros n ys; simpl.
  - now intros [= <-].
  - destruct (f n x) as [y | e]; simpl; [ | discriminate].
    destruct (map_from f (S n) tl) as [ys' | e] eqn:E; simpl; [ | discriminate].
    intros [= <-]. simpl. f_equal. now apply (IH (S n)).
Qed.

Lemma map_from_throws f n good x rest e :
  (forall i z, In z good -> exists y, f i z = Normal y) ->
  (forall i, f i x = Throw e) ->
  map_from f n (good ++ x :: rest) = Throw e.
Proof.
  revert n. induction good as [ | z good IH]; intros n Hgood Hx; simpl.
  - now rewrite Hx.
  - destruct (Hgood n z (or_introl eq_refl)) as [y ->]. simpl.
    rewrite IH; [reflexivity | | exact Hx].
    intros i z' Hz'. apply Hgood. now right.
Qed.

Lemma issue_returns clock raw :
  nullish raw = false -> exists r, Jira.normalizeCustomIssue clock raw = Normal r.
Proof.
  intros H. destruct (issue_follows clock raw H) as (r & Hr & _). now exists r.
Qed.

Lemma issue_throws clock raw :
  nullish raw = true ->
  Jira.normalizeCustomIssue clock raw
  = Throw (TypeError ("Cannot read properties of " +:+ describe raw
                      +:+ " (reading 'id')")).
Proof. destruct raw; try discriminate; reflexivity. Qed.

(** X1. An issue search keeps every upstream issue, in order: when no
    entry of the selected array is [null] or [undefined], the result
    holds as many issues as the array, the [i]-th being the
    normalization of the [i]-th entry, and [total] is the upstream
    [total] when that is truthy and the number of issues otherwise. *)
Theorem issue_search_keeps_every_issue clocks raw items maxResults startAt :
  nullish raw = false ->
  first_truthy raw ["issues"; "data"; "results"] (JArr []) = JArr items ->
  Forall (fun x => nullish x = false) items ->
  exists ys,
    Jira.normalizeCustomSearchResult clocks raw maxResults startAt
    = Normal (JObj [("issues", JArr ys);
                    ("total", jor (prop raw "total")
                                (JNum (Z.of_nat (List.length items))));
                    ("maxResults", JNum maxResults);
                    ("startAt", JNum startAt)]) /\
    List.length ys = List.length items /\
    forall i x, items !! i = Some x ->
      exists y, ys !! i = Some y /\
                Jira.normalizeCustomIssue (clocks i) x = Normal y.
Proof.
  intros H He Hall. cbn [first_truthy fold_right] in He.
  destruct (map_from_returns
              (fun i issue => Jira.normalizeCustomIssue (clocks i) issue)
              O items) as (ys & Hys & Hlen & Hnth).
  { intros i x Hx. apply issue_returns.
    rewrite List.Forall_forall in Hall. now apply Hall. }
  exists ys. split; [ | now split].
  unfold Jira.normalizeCustomSearchResult. eval_literal raw.
  rewrite He. cbn [array_map bind]. rewrite Hys. cbn [bind].
  eval_literal raw. reflexivity.
Qed.

Definition two_issues : JsVal :=
  JObj [("data", JArr [JObj [("id", JNum 1)]; JObj [("id", JNum 2)]])].

Lemma issue_search_keeps_every_issue_witness :
  exists ys,
    Jira.normalizeCustomSearchResult sample_clocks two_issues 50 0
    = Normal (JObj [("issues", JArr ys);
                    ("total", jor (prop two_issues "total") (JNum 2));
                    ("maxResults", JNum 50); ("startAt", JNum 0)]) /\
    List.length ys = 2%nat /\
    forall i x,
      [JObj [("id", JNum 1)]; JObj [("id", JNum 2)]] !! i = Some x ->
      exists y, ys !! i = Some y /\
                Jira.normalizeCustomIssue (sample_clocks i) x = Normal y.
Proof.
  apply (issue_search_keeps_every_issue sample_clocks two_issues
           [JObj [("id", JNum 1)]; JObj [("id", JNum 2)]] 50 0).
  - reflexivity.
  - reflexivity.
  - repeat constructor.
Defined.

(** X2. One [null] or [undefined] entry in the upstream array fails the
    whole issue search: the normalizer throws the TypeError of reading
    [id] from that entry, and no issue is returned. *)
Theorem issue_search_fails_on_null_entry
  clocks raw good x rest maxResults startAt :
  nullish raw = false ->
  first_truthy raw ["issues"; "data"; "results"] (JArr [])
    = JArr (good ++ x :: rest) ->
  Forall (fun z => nullish z = false) good ->
  nullish x = true ->
  Jira.normalizeCustomSearchResult clocks raw maxResults startAt
  = Throw (TypeError ("Cannot read properties of " +:+ describe x
                      +:+ " (reading 'id')")).
Proof.
  intros H He Hgood Hx. cbn [first_truthy fold_right] in He.
  unfold Jira.normalizeCustomSearchResult. eval_literal raw.
  rewrite He. cbn [array_map bind properties object].
  rewrite (map_from_throws _ _ good x rest
             (TypeError ("Cannot read properties of " +:+ describe x
                         +:+ " (reading 'id')"))).
  - reflexivity.
  - intros i z Hz. apply issue_returns.
    rewrite List.Forall_forall in Hgood. now apply Hgood.
  - intros i. now apply issue_throws.
Qed.

Lemma issue_search_fails_on_null_entry_witness :
  Jira.normalizeCustomSearchResult sample_clocks
    (JObj [("issues", JArr [JObj [("id", JNum 1)]; JNull])]) 50 0
  = Throw (TypeError "Cannot read properties of null (reading 'id')").
Proof.
  apply (issue_search_fails_on_null_entry sample_clocks
           (JObj [("issues", JArr [JObj [("id", JNum 1)]; JNull])])
           [JObj [("id", JNum 1)]] JNull [] 50 0).
  - reflexivity.
  - reflexivity.
  - repeat constructor.
  - reflexivity.
Defined.

Definition is_array (v : JsVal) : bool :=
  match v with JArr _ => true | _ => false end.

Lemma jor_truthy_default a d : truthy d = true -> truthy (jor a d) = true.
Proof. unfold jor. destruct (truthy a) eqn:E; [now rewrite E | easy]. Qed.

(** X3. When the value the search normalizers select is not an array (an
    object or a string under [issues], say), they throw the TypeError of
    calling a [map] that is no function. *)
Theorem search_fails_on_non_array clocks raw limit start :
  nullish raw = false ->
  (is_array (first_truthy raw ["issues"; "data"; "results"] (JArr [])) = false ->
   Jira.normalizeCustomSearchResult clocks raw limit start
   = Throw (TypeError "issues.map is not a function")) /\
  (is_array (first_truthy raw ["pages"; "data"; "results"] (JArr [])) = false ->
   Confluence.normalizeCustomSearchResult clocks raw limit start
   = Throw (TypeError "pages.map is not a function")).
Proof.
  intros H. split; intros Ha; cbn [first_truthy fold_right] in Ha.
  - unfold Jira.normalizeCustomSearchResult. eval_literal raw.
    set (v := jor _ _) in *.
    assert (Ht : truthy v = true)
      by (subst v; repeat apply jor_truthy_default; reflexivity).
    destruct v; try discriminate; reflexivity.
  - unfold Confluence.normalizeCustomSearchResult. eval_literal raw.
    set (v := jor _ _) in *.
    assert (Ht : truthy v = true)
      by (subst v; repeat apply jor_truthy_default; reflexivity).
    destruct v; try discriminate; reflexivity.
Qed.

Lemma search_fails_on_non_array_witness :
  Jira.normalizeCustomSearchResult sample_clocks
    (JObj [("issues", JObj [("count", JNum 0)])]) 50 0
  = Throw (TypeError "issues.map is not a function").
Proof.
  exact (proj1 (search_fails_on_non_array sample_clocks
                  (JObj [("issues", JObj [("count", JNum 0)])]) 50 0 eq_refl)
           eq_refl).
Defined.

(** ** The requests of the issue client *)

Definition custom_jira : JiraOperations.Config :=
  JiraOperations.mkConfig true "v1" 50.
Definition standard_jira : JiraOperations.Config :=
  JiraOperations.mkConfig false "v1" 50.

(** X4. Against the custom API an issue search sends one GET to
    [/<version>/issues/search] without a body; its parameters carry
    [limit] and [offset] as given and, besides them, nothing but
    [project], [status] and [assignee]: the query text itself is never
    sent.  The result is the normalized answer to that one call. *)
Theorem searchIssues_sends_filters_only config jql maxResults startAt :
  JiraOperations.useCustomApi config = true ->
  exists params : gmap string JsVal,
    params !! "limit" = Some (JNum maxResults) /\
    params !! "offset" = Some (JNum startAt) /\
    dom params ⊆ ({[ "project"; "status"; "assignee"; "limit"; "offset" ]}
                  : gset string) /\
    forall http clocks,
      JiraOperations.searchIssues config http clocks jql maxResults startAt
      = rethrow "Failed to search issues: "
          (data <- http (mkCall "GET"
                           ("/" +:+ JiraOperations.customApiVersion config
                            +:+ "/issues/search")
                           params JUndefined) ;;
           Jira.normalizeCustomSearchResult clocks data maxResults startAt).
Proof.
  intros Hc. destruct (parseJqlToFilters_returns jql) as (filters & Hf & Hd & _).
  exists (<["offset" := JNum startAt]>
            (<["limit" := JNum maxResults]> (JStr <$> filters))).
  split; [now rewrite lookup_insert_ne, lookup_insert_eq | ].
  split; [now rewrite lookup_insert_eq | ].
  split.
  - rewrite !dom_insert_L, dom_fmap_L. intros x.
    rewrite !elem_of_union, !elem_of_singleton. intros [-> | [-> | Hx]]; auto.
    specialize (Hd x Hx). revert Hd.
    rewrite !elem_of_union, !elem_of_singleton. tauto.
  - intros http clocks. unfold JiraOperations.searchIssues.
    now rewrite Hc, Hf.
Qed.

Lemma searchIssues_sends_filters_only_witness :
  exists params : gmap string JsVal,
    params !! "limit" = Some (JNum 50) /\
    params !! "offset" = Some (JNum 0) /\
    dom params ⊆ ({[ "project"; "status"; "assignee"; "limit"; "offset" ]}
                  : gset string) /\
    forall http clocks,
      JiraOperations.searchIssues custom_jira http clocks
        "project = DEMO ORDER BY created" 50 0
      = rethrow "Failed to search issues: "
          (data <- http (mkCall "GET" "/v1/issues/search" params JUndefined) ;;
           Jira.normalizeCustomSearchResult clocks data 50 0).
Proof.
  exact (searchIssues_sends_filters_only custom_jira
           "project = DEMO ORDER BY created" 50 0 eq_refl).
Defined.

(** The fields of an update and the keys they are sent under. *)
Definition update_keys : list (string * string) :=
  [("summary", "title"); ("description", "description");
   ("assignee", "assignee"); ("priority", "priority"); ("labels", "labels")].

(** X5. Against the custom API an update sends one PUT whose body holds a
    field exactly when the update gives it a truthy value, [summary]
    under the key [title]: a field cannot be cleared by updating it to
    the empty string, and an update without any value still sends the
    request, with an empty body. *)
Theorem updateIssue_sends_truthy_fields config issueKey updateData :
  JiraOperations.useCustomApi config = true ->
  nullish updateData = false ->
  exists body,
    (forall http,
       JiraOperations.updateIssue config http issueKey updateData
       = rethrow ("Failed to update issue " +:+ issueKey +:+ ": ")
           (_ <- http (mkCall "PUT"
                         ("/" +:+ JiraOperations.customApiVersion config
                          +:+ "/issues/" +:+ issueKey)
                         ∅ (JObj body)) ;;
            Normal JUndefined)) /\
    Forall (fun '(from, to) =>
              has_own to body = truthy (prop updateData from) /\
              (truthy (prop updateData from) = true ->
               lookup_prop to body = prop updateData from))
      update_keys /\
    forall k, has_own k body = true -> In k (snd <$> update_keys).
Proof.
  intros Hc H.
  exists (let b := [] in
          let b := if truthy (prop updateData "summary")
                   then set_prop "title" (prop updateData "summary") b else b in
          let b := if truthy (prop updateData "description")
                   then set_prop "description" (prop updateData "description") b
                   else b in
          let b := if truthy (prop updateData "assignee")
                   then set_prop "assignee" (prop updateData "assignee") b
                   else b in
          let b := if truthy (prop updateData "priority")
                   then set_prop "priority" (prop updateData "priority") b
                   else b in
          if truthy (prop updateData "labels")
          then set_prop "labels" (prop updateData "labels") b else b).
  split.
  - intros http. unfold JiraOperations.updateIssue, set_if_truthy.
    rewrite Hc. unfold val. rewrite !(dot_normal updateData) by exact H.
    reflexivity.
  - unfold update_keys. rewrite !Forall_cons, Forall_nil. cbv zeta.
    cbn beta iota.
    destruct (truthy (prop updateData "summary"));
    destruct (truthy (prop updateData "description"));
    destruct (truthy (prop updateData "assignee"));
    destruct (truthy (prop updateData "priority"));
    destruct (truthy (prop updateData "labels")); cbn;
    (split; [intuition (first [reflexivity | discriminate]) | ]);
    intros k Hk;
    rewrite ?orb_true_iff, ?String.eqb_eq in Hk;
    intuition (subst; auto; discriminate).
Qed.

Lemma updateIssue_sends_truthy_fields_witness :
  exists body,
    (forall http,
       JiraOperations.updateIssue custom_jira http "DEMO-1"
         (JObj [("summary", JStr ""); ("priority", JStr "High")])
       = rethrow "Failed to update issue DEMO-1: "
           (_ <- http (mkCall "PUT" "/v1/issues/DEMO-1" ∅ (JObj body)) ;;
            Normal JUndefined)) /\
    Forall (fun '(from, to) =>
              has_own to body
              = truthy (prop (JObj [("summary", JStr ""); ("priority", JStr "High")])
                          from) /\
              (truthy (prop (JObj [("summary", JStr ""); ("priority", JStr "High")])
                         from) = true ->
               lookup_prop to body
               = prop (JObj [("summary", JStr ""); ("priority", JStr "High")]) from))
      update_keys /\
    forall k, has_own k body = true -> In k (snd <$> update_keys).
Proof.
  exact (updateIssue_sends_truthy_fields custom_jira "DEMO-1"
           (JObj [("summary", JStr ""); ("priority", JStr "High")])
           eq_refl eq_refl).
Defined.

(** ** Transitions *)

Definition transition_required : list Attribute := [
  mkAttribute ["id"] ["id"; "transition_id"] (JStr "");
  mkAttribute ["name"] ["name"; "status"; "to_status"] (JStr "");
  mkAttribute ["to"; "name"] ["to_status"; "target_status"; "name"] (JStr "");
  mkAttribute ["to"; "id"] ["to_id"; "id"] (JStr "")
].

Lemma transition_follows t :
  nullish t = false ->
  exists r, JiraOperations.transition_of t = Normal r /\
            Forall (follows_aliases t r) transition_required.
Proof.
  intros H. eexists. split.
  - unfold JiraOperations.transition_of. eval_literal t. reflexivity.
  - holds_for_all.
Qed.

(** X6. The transitions of the custom API are normalized like the other
    entities: [id], [name], [to.name] and [to.id] are each the first
    truthy alias of their list, never [undefined], and the empty string
    when the raw transition has none of the aliases.  The name of the
    transition stands in for the target status when the upstream names
    no target, and the target status for the name of the transition. *)
Theorem transition_fields_defaulted t :
  nullish t = false ->
  exists r, JiraOperations.transition_of t = Normal r /\
            Forall (follows_aliases t r) transition_required /\
            Forall (defaulted t r) transition_required.
Proof.
  intros H. destruct (transition_follows t H) as (r & Hr & Hf).
  exists r. split; [exact Hr | ]. split; [exact Hf | ].
  apply follows_defaulted; [ | exact Hf].
  repeat (constructor; [discriminate | ]). constructor.
Qed.

Lemma transition_fields_defaulted_witness :
  exists r, JiraOperations.transition_of (JObj [("name", JStr "Done")]) = Normal r /\
            Forall (follows_aliases (JObj [("name", JStr "Done")]) r)
              transition_required /\
            Forall (defaulted (JObj [("name", JStr "Done")]) r)
              transition_required.
Proof.
  exact (transition_fields_defaulted (JObj [("name", JStr "Done")]) eq_refl).
Defined.

(** ** Answers without the expected array *)

(** X7. When the answer of the custom API is neither [null] nor
    [undefined], and the value an operation selects from it (the first
    truthy one of [comments] and [data] for [getComments], of [projects]
    and [data] for [getProjects], of [transitions] and [data] for
    [getTransitions], else the empty array) is the empty array, the
    operation returns the empty list and does not raise.  An answer that
    is [null] or [undefined], or whose first truthy alias is not the
    empty array, is outside this statement. *)
Theorem listing_of_nothing config http clocks issueKey data :
  JiraOperations.useCustomApi config = true ->
  (forall call, http call = Normal data) ->
  nullish data = false ->
  (first_truthy data ["comments"; "data"] (JArr []) = JArr [] ->
   JiraOperations.getComments config http clocks issueKey = Normal (JArr [])) /\
  (first_truthy data ["projects"; "data"] (JArr []) = JArr [] ->
   JiraOperations.getProjects config http = Normal (JArr [])) /\
  (first_truthy data ["transitions"; "data"] (JArr []) = JArr [] ->
   JiraOperations.getTransitions config http issueKey = Normal (JArr [])).
Proof.
  intros Hc Hh H. repeat split; intros He; cbn [first_truthy fold_right] in He.
  - unfold JiraOperations.getComments. rewrite Hc, Hh. cbn [bind].
    eval_literal data. now rewrite He.
  - unfold JiraOperations.getProjects. rewrite Hc, Hh. cbn [bind].
    eval_literal data. now rewrite He.
  - unfold JiraOperations.getTransitions. rewrite Hc, Hh. cbn [bind].
    eval_literal data. now rewrite He.
Qed.

Lemma listing_of_nothing_witness :
  JiraOperations.getProjects custom_jira
    (fun _ => Normal (JObj [("count", JNum 0)])) = Normal (JArr []).
Proof.
  exact (proj1 (proj2 (listing_of_nothing custom_jira
                         (fun _ => Normal (JObj [("count", JNum 0)]))
                         sample_clocks "DEMO-1" (JObj [("count", JNum 0)])
                         eq_refl (fun _ => eq_refl) eq_refl)) eq_refl).
Defined.

(** ** Creating an issue through the standard API *)

(** X8. Against the standard API [createIssue] answers with a second
    call: it reads [key] from the answer to its POST and returns what
    [getIssue] returns for that key, errors included, under its own
    prefix.  An answer without [key] makes it fetch the issue named
    [undefined]. *)
Theorem createIssue_fetches_created_issue
  config clocks projectKey issueData :
  JiraOperations.useCustomApi config = false ->
  nullish issueData = false ->
  exists payload,
    forall http data issueKey,
      http (mkCall "POST" "/issue" ∅ payload) = Normal data ->
      nullish data = false ->
      toString (prop data "key") = Normal issueKey ->
      JiraOperations.createIssue config http clocks projectKey issueData
      = rethrow "Failed to create issue: "
          (JiraOperations.getIssue config http clocks issueKey).
Proof.
  intros Hc H. eexists. intros http data issueKey Hh Hd Hk.
  unfold JiraOperations.createIssue. rewrite Hc.
  unfold paragraph_doc, array. cbn [elements].
  eval_literal issueData.
  rewrite Hh. cbn [bind]. eval_literal data. rewrite Hk. reflexivity.
Qed.

Lemma createIssue_fetches_created_issue_witness :
  exists payload,
    forall http data issueKey,
      http (mkCall "POST" "/issue" ∅ payload) = Normal data ->
      nullish data = false ->
      toString (prop data "key") = Normal issueKey ->
      JiraOperations.createIssue standard_jira http sample_clocks "DEMO"
        (JObj [("summary", JStr "Fix login")])
      = rethrow "Failed to create issue: "
          (JiraOperations.getIssue standard_jira http sample_clocks issueKey).
Proof.
  exact (createIssue_fetches_created_issue standard_jira sample_clocks "DEMO"
           (JObj [("summary", JStr "Fix login")]) eq_refl eq_refl).
Defined.

(** ** Failures of the upstream *)

(** X9. When the upstream fails, every operation of the issue client
    that takes plain strings raises an [Error] whose message is the
    prefix naming the operation and its target, followed by the message
    of the upstream, unchanged; this holds in both modes. *)
Theorem issue_client_surfaces_upstream_error
  config http clocks m issueKey jql maxResults startAt comment transitionId :
  (forall call, http call = Throw (Error m)) ->
  JiraOperations.getIssue config http clocks issueKey
    = Throw (Error (("Failed to get issue " +:+ issueKey +:+ ": ") +:+ m)) /\
  JiraOperations.searchIssues config http clocks jql maxResults startAt
    = Throw (Error ("Failed to search issues: " +:+ m)) /\
  JiraOperations.addComment config http clocks issueKey comment
    = Throw (Error (("Failed to add comment to " +:+ issueKey +:+ ": ") +:+ m)) /\
  JiraOperations.getComments config http clocks issueKey
    = Throw (Error (("Failed to get comments for " +:+ issueKey +:+ ": ") +:+ m)) /\
  JiraOperations.getProjects config http
    = Throw (Error ("Failed to get projects: " +:+ m)) /\
  JiraOperations.getTransitions config http issueKey
    = Throw (Error (("Failed to get transitions for " +:+ issueKey +:+ ": ")
                    +:+ m)) /\
  JiraOperations.transitionIssue config http issueKey transitionId
    = Throw (Error (("Failed to transition issue " +:+ issueKey +:+ ": ") +:+ m)).
Proof.
  intros Hh. destruct (parseJqlToFilters_returns jql) as (filters & Hf & _).
  unfold JiraOperations.getIssue, JiraOperations.searchIssues,
    JiraOperations.addComment, JiraOperations.getComments,
    JiraOperations.getProjects, JiraOperations.getTransitions,
    JiraOperations.transitionIssue.
  rewrite Hf. unfold paragraph_doc, array, val.
  cbn [elements object properties bind].
  destruct (JiraOperations.useCustomApi config);
    rewrite !Hh; repeat split; reflexivity.
Qed.

Lemma issue_client_surfaces_upstream_error_witness :
  JiraOperations.getIssue custom_jira (fun _ => Throw (Error "timeout of 30000ms exceeded"))
    sample_clocks "DEMO-1"
  = Throw (Error "Failed to get issue DEMO-1: timeout of 30000ms exceeded").
Proof.
  exact (proj1 (issue_client_surfaces_upstream_error custom_jira
                  (fun _ => Throw (Error "timeout of 30000ms exceeded"))
                  sample_clocks "timeout of 30000ms exceeded" "DEMO-1"
                  "project = DEMO" 50 0 "hello" "31" (fun _ => eq_refl))).
Defined.

(** X10. When the upstream fails, the operations of the page client
    raise an [Error] whose message is their prefix followed by the
    message of the upstream; [getSpace] against the custom API goes
    through [getSpaces] and carries both prefixes.  Against the custom
    API [getPageChildren] and [getComments] do not raise: they return
    the empty list. *)
Theorem page_client_surfaces_upstream_error
  config http http' clocks string_gt_zero m
  pageId spaceKey title content expand cql limit start parentPageId version :
  (forall call, http call = Throw (Error m)) ->
  (forall request, http' request = Throw (Error m)) ->
  ConfluenceOperations.getPage config http clocks pageId expand
    = Throw (Error (("Failed to get page " +:+ pageId +:+ ": ") +:+ m)) /\
  ConfluenceOperations.searchContent config http clocks cql limit start
    = Throw (Error ("Failed to search content: " +:+ m)) /\
  ConfluenceOperations.createPage config http clocks spaceKey title content
    parentPageId
    = Throw (Error (("Failed to create page " +:+ String dquote title
                     +:+ String dquote "" +:+ ": ") +:+ m)) /\
  ConfluenceOperations.updatePage config http clocks pageId title content version
    = Throw (Error (("Failed to update page " +:+ pageId +:+ ": ") +:+ m)) /\
  ConfluenceOperations.deletePage config http pageId
    = Throw (Error (("Failed to delete page " +:+ pageId +:+ ": ") +:+ m)) /\
  ConfluenceOperations.addComment config http clocks pageId content
    = Throw (Error (("Failed to add comment to page " +:+ pageId +:+ ": ")
                    +:+ m)) /\
  Confluence.getPageByTitle config http' clocks string_gt_zero
    spaceKey title expand
    = Throw (Error (("Failed to get page " +:+ String dquote title
                     +:+ String dquote "" +:+ " in space " +:+ spaceKey +:+ ": ")
                    +:+ m)) /\
  Confluence.getSpaces config http' limit
    = Throw (Error ("Failed to get spaces: " +:+ m)) /\
  Confluence.getSpace config http' spaceKey
    = Throw (Error (("Failed to get space " +:+ spaceKey +:+ ": ") +:+
                    (if Confluence.useCustomApi config
                     then "Failed to get spaces: " +:+ m else m))) /\
  ConfluenceOperations.getPageChildren config http clocks pageId
    = (if Confluence.useCustomApi config then Normal (JArr [])
       else Throw (Error (("Failed to get children of page " +:+ pageId +:+ ": ")
                          +:+ m))) /\
  ConfluenceOperations.getComments config http clocks pageId
    = (if Confluence.useCustomApi config then Normal (JArr [])
       else Throw (Error (("Failed to get comments for page " +:+ pageId +:+ ": ")
                          +:+ m))).
Proof.
  intros Hh Hh'.
  unfold ConfluenceOperations.getPage, ConfluenceOperations.searchContent,
    ConfluenceOperations.createPage, ConfluenceOperations.updatePage,
    ConfluenceOperations.deletePage, ConfluenceOperations.addComment,
    ConfluenceOperations.getPageChildren, ConfluenceOperations.getComments,
    Confluence.getPageByTitle, Confluence.getSpace, Confluence.getSpaces,
    ConfluenceOperations.custom, storage_body, val.
  cbn [object properties bind].
  destruct (Confluence.useCustomApi config);
    rewrite ?Hh, ?Hh'; repeat split; reflexivity.
Qed.

Lemma page_client_surfaces_upstream_error_witness :
  Confluence.getSpace sample_config
    (fun _ => Throw (Error "Request failed with status code 503")) "DEV"
  = Throw (Error "Failed to get space DEV: Failed to get spaces: Request failed with status code 503").
Proof.
  exact (proj1 (proj2 (proj2 (proj2 (proj2 (proj2 (proj2 (proj2 (proj2
           (page_client_surfaces_upstream_error sample_config
              (fun _ => Throw (Error "Request failed with status code 503"))
              (fun _ => Throw (Error "Request failed with status code 503"))
              sample_clocks (fun _ => false)
              "Request failed with status code 503"
              "123" "DEV" "Home" "text" ["version"] "type = page" 25 0
              JUndefined 1 (fun _ => eq_refl) (fun _ => eq_refl))))))))))).
Defined.

(** X11. Against the custom API [getPageChildren] and [getComments] of
    the page client never raise, whatever the upstream does: the answer
    is a list, and it is empty as soon as the call fails, the answer is
    not of the expected shape, or one entry cannot be normalized. *)
Theorem children_and_comments_never_raise config http clocks pageId :
  Confluence.useCustomApi config = true ->
  (exists items,
     ConfluenceOperations.getPageChildren config http clocks pageId
     = Normal (JArr items)) /\
  (exists items,
     ConfluenceOperations.getComments config http clocks pageId
     = Normal (JArr items)).
Proof.
  intros Hc.
  unfold ConfluenceOperations.getPageChildren, ConfluenceOperations.getComments,
    ConfluenceOperations.custom.
  rewrite Hc. split.
  - destruct (http _) as [data | e]; cbn [bind catch_all rethrow]; [ | eauto].
    destruct (_ <||> _) as [children | e]; cbn [bind catch_all]; [ | eauto].
    destruct children; cbn [array_map catch_all bind]; eauto.
    destruct (map_from _ _ _); cbn [bind catch_all]; eauto.
  - destruct (http _) as [data | e]; cbn [bind catch_all rethrow]; [ | eauto].
    destruct (_ <||> _) as [comments | e]; cbn [bind catch_all]; [ | eauto].
    destruct comments; cbn [array_map catch_all bind]; eauto.
    destruct (map_from _ _ _); cbn [bind catch_all]; eauto.
Qed.

Lemma children_and_comments_never_raise_witness :
  exists items,
    ConfluenceOperations.getPageChildren sample_config
      (fun _ => Normal (JObj [("children", JArr [JNull])])) sample_clocks "123"
    = Normal (JArr items).
Proof.
  exact (proj1 (children_and_comments_never_raise sample_config
                  (fun _ => Normal (JObj [("children", JArr [JNull])]))
                  sample_clocks "123" eq_refl)).
Defined.

(** ** What a lookup returns *)

Lemma rethrow_normal {A} prefix (body : Completion A) a :
  rethrow prefix body = Normal a -> body = Normal a.
Proof. destruct body; simpl; congruence. Qed.

Lemma get_normal_inv v k w : get v k = Normal w -> nullish v = false.
Proof. destruct v; simpl; congruence. Qed.

(** X12. Against the custom API [getPageByTitle] returns a page only for
    a title match: when it returns something other than [null], that is
    the normalization of the first entry of the upstream list, and the
    title of that entry ([title], else [name]) equals the requested
    title up to the case of letters.  Later entries are never looked
    at. *)
Theorem getPageByTitle_returns_title_match
  config http clocks string_gt_zero spaceKey title expand r :
  Confluence.useCustomApi config = true ->
  Confluence.getPageByTitle config http clocks string_gt_zero
    spaceKey title expand = Normal r ->
  r <> JNull ->
  exists data page t,
    http (Confluence.mkRequest "GET"
            ("/" +:+ Confluence.customApiVersion config +:+ "/pages/search")
            [("q", JStr title); ("space", JStr spaceKey); ("limit", JNum 1)])
      = Normal data /\
    first_element (first_truthy data ["pages"; "data"; "results"] (JArr []))
      = Normal page /\
    first_truthy page ["title"; "name"] (JStr "") = JStr t /\
    toLowerCase t = toLowerCase title /\
    Confluence.normalizeCustomPage (clocks 0%nat) page = Normal r.
Proof.
  intros Hc H Hr. apply rethrow_normal in H. revert H.
  unfold Confluence.getPageByTitle. rewrite Hc.
  destruct (http _) as [data | e] eqn:Hh; cbn [bind]; [ | discriminate].
  destruct (nullish data) eqn:Hd.
  { destruct data; try discriminate Hd; discriminate. }
  eval_literal data.
  set (pages := jor (prop data "pages") _).
  assert (Hp : nullish pages = false).
  { apply truthy_not_nullish. subst pages.
    repeat apply jor_truthy_default. reflexivity. }
  eval_literal pages.
  destruct (Confluence.gt_zero string_gt_zero (prop pages "length"))
    as [[ | ] | e]; cbn [bind]; try discriminate; [ | congruence].
  destruct (first_element pages) as [page | e] eqn:Hf; cbn [bind];
    [ | discriminate].
  destruct (nullish page) eqn:Hn.
  { destruct page; try discriminate Hn; discriminate. }
  eval_literal page.
  set (t := jor (prop page "title") _).
  destruct t as [ | | | | s | | | ] eqn:Ht; cbn [Confluence.lower_case bind];
    try discriminate.
  destruct (String.eqb (toLowerCase s) (toLowerCase title)) eqn:He;
    [ | congruence].
  intros H. exists data, page, s. apply String.eqb_eq in He.
  repeat split; assumption.
Qed.

Definition home_answer : Confluence.Request -> Completion JsVal :=
  fun _ => Normal (JObj [("pages", JArr [JObj [("name", JStr "HOME")]])]).

Definition home_page : JsVal :=
  Eval vm_compute in
    match Confluence.normalizeCustomPage (sample_clocks 0%nat)
            (JObj [("name", JStr "HOME")]) with
    | Normal r => r
    | Throw _ => JNull
    end.

Lemma getPageByTitle_returns_title_match_witness :
  exists data page t,
    home_answer
      (Confluence.mkRequest "GET"
         ("/" +:+ Confluence.customApiVersion sample_config +:+ "/pages/search")
         [("q", JStr "Home"); ("space", JStr "DEV"); ("limit", JNum 1)])
      = Normal data /\
    first_element (first_truthy data ["pages"; "data"; "results"] (JArr []))
      = Normal page /\
    first_truthy page ["title"; "name"] (JStr "") = JStr t /\
    toLowerCase t = toLowerCase "Home" /\
    Confluence.normalizeCustomPage (sample_clocks 0%nat) page = Normal home_page.
Proof.
  apply (getPageByTitle_returns_title_match sample_config home_answer
           sample_clocks (fun _ => false) "DEV" "Home" ["version"] home_page).
  - reflexivity.
  - reflexivity.
  - discriminate.
Defined.

Lemma strict_eq_string_true v s : strict_eq_string v s = true -> v = JStr s.
Proof.
  destruct v; simpl; try discriminate. intros H.
  apply String.eqb_eq in H. now subst.
Qed.

Lemma find_from_found p items x :
  find_from p items = Normal x -> truthy x = true ->
  In x items /\ p x = Normal true.
Proof.
  induction items as [ | y tl IH]; simpl.
  - intros [= <-]. discriminate.
  - destruct (p y) as [[ | ] | e] eqn:E; simpl; try discriminate.
    + intros [= <-] _. split; [now left | exact E].
    + intros H Ht. destruct (IH H Ht). split; [now right | assumption].
Qed.

Lemma map_from_image f n items ys y :
  map_from f n items = Normal ys -> In y ys ->
  exists i x, In x items /\ f i x = Normal y.
Proof.
  revert n ys. induction items as [ | x tl IH]; intros n ys; simpl.
  - intros [= <-] [].
  - destruct (f n x) as [z | e] eqn:E; simpl; [ | discriminate].
    destruct (map_from f (S n) tl) as [zs | e] eqn:E'; simpl; [ | discriminate].
    intros [= <-] [<- | Hy].
    + exists n, x. split; [now left | exact E].
    + destruct (IH _ _ E' Hy) as (i & x' & Hx' & Hf).
      exists i, x'. split; [now right | exact Hf].
Qed.

(** X13. Against the custom API [getSpace] returns a space only for a
    match: what it returns is the normalization of an entry of the
    upstream list, and its [key] or its [name] is the requested key,
    exactly. *)
Theorem getSpace_returns_a_match config http spaceKey r :
  Confluence.useCustomApi config = true ->
  Confluence.getSpace config http spaceKey = Normal r ->
  (field r ["key"] = JStr spaceKey \/ field r ["name"] = JStr spaceKey) /\
  exists data items raw,
    http (Confluence.mkRequest "GET"
            ("/" +:+ Confluence.customApiVersion config +:+ "/spaces")
            [("limit", JNum (Confluence.maxResultsDefault config))])
      = Normal data /\
    first_truthy data ["spaces"; "data"] (JArr []) = JArr items /\
    In raw items /\
    Confluence.normalizeCustomSpace raw = Normal r.
Proof.
  intros Hc H. apply rethrow_normal in H. revert H.
  unfold Confluence.getSpace, Confluence.getSpaces. rewrite Hc.
  destruct (http _) as [data | e] eqn:Hh; cbn [bind rethrow]; [ | discriminate].
  destruct (nullish data) eqn:Hd.
  { destruct data; try discriminate Hd; discriminate. }
  eval_literal data.
  set (spaces := jor (prop data "spaces") _).
  destruct spaces as [ | | | | | items | | ] eqn:Hs;
    cbn [array_map bind rethrow]; try discriminate.
  destruct (map_from _ O items) as [ys | e] eqn:Hm; cbn [bind rethrow];
    [ | discriminate].
  cbn [array_find].
  destruct (find_from _ ys) as [space | e] eqn:Hf; cbn [bind]; [ | discriminate].
  destruct (truthy space) eqn:Ht; cbn [negb]; [ | discriminate].
  intros [= <-].
  destruct (find_from_found _ _ _ Hf Ht) as [Hin Hp].
  split.
  - revert Hp. unfold dot. cbn [bind].
    destruct (get space "key") as [k | e] eqn:Hk; cbn [bind]; [ | discriminate].
    assert (Hn : nullish space = false) by (eapply get_normal_inv; eassumption).
    rewrite get_normal in Hk by exact Hn. injection Hk as <-.
    destruct (strict_eq_string (prop space "key") spaceKey) eqn:Ek.
    + intros _. left. now apply strict_eq_string_true.
    + rewrite get_normal by exact Hn. cbn [bind]. intros [= Hname].
      right. now apply strict_eq_string_true.
  - destruct (map_from_image _ _ _ _ _ Hm Hin) as (i & raw & Hraw & Hnorm).
    exists data, items, raw. repeat split; assumption.
Qed.

Definition spaces_answer : Confluence.Request -> Completion JsVal :=
  fun _ => Normal (JObj [("spaces", JArr [JObj [("id", JStr "OPS")];
                                         JObj [("title", JStr "DEV")]])]).

Definition dev_space : JsVal :=
  Eval vm_compute in
    match Confluence.normalizeCustomSpace (JObj [("title", JStr "DEV")]) with
    | Normal r => r
    | Throw _ => JNull
    end.

Lemma getSpace_returns_a_match_witness :
  (field dev_space ["key"] = JStr "DEV" \/ field dev_space ["name"] = JStr "DEV") /\
  exists data items raw,
    spaces_answer
      (Confluence.mkRequest "GET"
         ("/" +:+ Confluence.customApiVersion sample_config +:+ "/spaces")
         [("limit", JNum (Confluence.maxResultsDefault sample_config))])
      = Normal data /\
    first_truthy data ["spaces"; "data"] (JArr []) = JArr items /\
    In raw items /\
    Confluence.normalizeCustomSpace raw = Normal dev_space.
Proof.
  apply (getSpace_returns_a_match sample_config spaces_answer "DEV" dev_space).
  - reflexivity.
  - reflexivity.
Defined.

(** X14. The [size] of a normalized page search is the number of pages it
    holds, and [start] and [limit] are the arguments of the call:
    whenever the normalizer returns, its result has this shape. *)
Theorem page_search_size_counts_results clocks raw limit start r :
  Confluence.normalizeCustomSearchResult clocks raw limit start = Normal r ->
  exists ys,
    r = JObj [("results", JArr ys); ("start", JNum start);
              ("limit", JNum limit);
              ("size", JNum (Z.of_nat (List.length ys)))].
Proof.
  unfold Confluence.normalizeCustomSearchResult.
  destruct (nullish raw) eqn:Hd.
  { destruct raw; try discriminate Hd; discriminate. }
  eval_literal raw.
  set (pages := jor (prop raw "pages") _).
  destruct pages as [ | | | | | items | | ] eqn:Hs;
    cbn [array_map bind properties object]; try discriminate.
  destruct (map_from _ O items) as [ys | e] eqn:Hm; cbn [bind];
    [ | discriminate].
  eval_literal (JArr items). cbn. intros [= <-].
  exists ys. now rewrite (map_from_length _ _ _ _ Hm).
Qed.

Definition two_pages : JsVal :=
  JObj [("results", JArr [JObj [("title", JStr "A")]; JObj [("title", JStr "B")]])].

Definition two_pages_result : JsVal :=
  Eval vm_compute in
    match Confluence.normalizeCustomSearchResult sample_clocks two_pages 25 0 with
    | Normal r => r
    | Throw _ => JNull
    end.

Lemma page_search_size_counts_results_witness :
  exists ys,
    two_pages_result
    = JObj [("results", JArr ys); ("start", JNum 0); ("limit", JNum 25);
            ("size", JNum (Z.of_nat (List.length ys)))].
Proof.
  apply (page_search_size_counts_results sample_clocks two_pages 25 0
           two_pages_result).
  reflexivity.
Defined.

(** ** What a clause of the issue query captures *)

(** No whitespace occurs in [s]. *)
Definition space_free (s : string) : Prop :=
  Forall (fun c => is_space c = false) (list_ascii_of_string s).

Lemma one_inv p st k res :
  one p st k = Some res ->
  exists c tl, rest st = c :: tl /\ p c = true /\ k (advance st c tl) = Some res.
Proof.
  unfold one. destruct (rest st) as [ | c tl]; [discriminate | ].
  destruct (p c) eqn:E; [ | discriminate]. intros H. now exists c, tl.
Qed.

Lemma literal_keeps_groups i s st k res :
  literal i s st k = Some res ->
  exists st', k st' = Some res /\ caps st' = caps st.
Proof.
  revert st. induction s as [ | a s IH]; intros st; simpl.
  - intros H. now exists st.
  - intros H. apply one_inv in H. destruct H as (c & tl & _ & _ & H).
    apply IH in H. destruct H as (st' & H & C). now exists st'.
Qed.

(** A repetition of a one-character test consumes a run of characters
    that pass the test, and captures nothing. *)
Lemma star_of_one p step n st k res :
  (forall st k, step st k = one p st k) ->
  star_loop step n st k = Some res ->
  exists st' (run : list ascii),
    k st' = Some res /\ caps st' = caps st /\
    rest st = (run ++ rest st')%list /\ Forall (fun c => p c = true) run.
Proof.
  intros Hstep. revert st. induction n as [ | n IH]; intros st; simpl.
  - intros H. exists st, []. repeat split; [exact H | constructor].
  - destruct (step st _) as [res' | ] eqn:E.
    + intros [= <-]. rewrite Hstep in E. apply one_inv in E.
      destruct E as (c & tl & Hrest & Hc & E).
      destruct (progress st (advance st c tl)); [ | discriminate].
      apply IH in E. destruct E as (st' & run & Hk & Hcaps & Hrun & Hall).
      exists st', (c :: run). split; [exact Hk | ]. split; [exact Hcaps | ].
      split; [ | now constructor].
      rewrite Hrest. simpl in Hrun. simpl. now rewrite <- Hrun.
    + intros H. exists st, []. repeat split; [exact H | constructor].
Qed.

Lemma consumed_run st st' (run : list ascii) :
  rest st = (run ++ rest st')%list -> consumed st st' = string_of_list_ascii run.
Proof.
  unfold consumed. intros ->. f_equal.
  rewrite length_app, Nat.add_sub. apply take_app_length.
Qed.

Lemma match_at_clause_group f p s m :
  match_at true (Jira.clause f) p s = Some m ->
  exists g, group 1 m = Some g /\ space_free g.
Proof.
  unfold match_at.
  destruct (rmatch true (Group 0 (Jira.clause f)) _ Some) as [res | ] eqn:E;
    [ | discriminate].
  intros [= <-]. cbn [Jira.clause seq rmatch Plus] in E.
  apply literal_keeps_groups in E. destruct E as (st1 & E & C1).
  apply (star_of_one is_space) in E; [ | reflexivity].
  destruct E as (st2 & _ & E & C2 & _ & _).
  apply literal_keeps_groups in E. destruct E as (st3 & E & C3).
  apply (star_of_one is_space) in E; [ | reflexivity].
  destruct E as (st4 & _ & E & C4 & _ & _).
  apply one_inv in E. destruct E as (c & tl & Hrest & Hc & E).
  apply (star_of_one (fun c => negb (is_space c))) in E; [ | reflexivity].
  destruct E as (st6 & run & E & C6 & Hrun & Hall).
  injection E as <-. cbn [caps group List.find fst Nat.eqb fmap option_fmap option_map snd].
  eexists. split; [reflexivity | ].
  rewrite (consumed_run st4 st6 (c :: run)).
  - unfold space_free. rewrite list_ascii_of_string_of_list_ascii.
    constructor; [now apply negb_true_iff | ].
    eapply Forall_impl; [exact Hall | ]. intros x Hx. now apply negb_true_iff.
  - rewrite Hrest. simpl in Hrun. simpl. now rewrite <- Hrun.
Qed.

Lemma str_match_clause_group f jql m :
  str_match true (Jira.clause f) jql = Some m ->
  exists g, group_string m 1 = Normal g /\ space_free g.
Proof.
  unfold str_match. generalize (@None ascii) as p.
  induction (list_ascii_of_string jql) as [ | c tl IH]; intros p; simpl.
  - destruct (match_at true (Jira.clause f) p []) eqn:E; [ | discriminate].
    intros [= <-]. apply match_at_clause_group in E.
    destruct E as (g & Hg & Hs). exists g. unfold group_string. now rewrite Hg.
  - destruct (match_at true (Jira.clause f) p (c :: tl)) eqn:E.
    + intros [= <-]. apply match_at_clause_group in E.
      destruct E as (g & Hg & Hs). exists g. unfold group_string. now rewrite Hg.
    + apply IH.
Qed.

Lemma strip_keeps_space_free cs s :
  space_free s -> space_free (replace_all false (OneOf cs) [Text ""] s).
Proof.
  unfold space_free, replace_all.
  rewrite strip_class, list_ascii_of_string_of_list_ascii.
  rewrite !List.Forall_forall. intros H c Hc. apply filter_In in Hc.
  apply H. tauto.
Qed.

Lemma me_space_free (s : string) :
  space_free s -> space_free (if String.eqb s "currentuser()" then "me" else s).
Proof.
  intros H. destruct (String.eqb s "currentuser()"); [ | exact H].
  unfold space_free. simpl. repeat constructor.
Qed.

(** X15. No value of the filters holds whitespace: a clause captures the
    characters up to the first whitespace, so a quoted value of several
    words is cut after its first word. *)
Theorem filter_values_hold_no_whitespace jql :
  exists filters : gmap string string,
    Jira.parseJqlToFilters jql = Normal filters /\
    forall k v, filters !! k = Some v -> space_free v.
Proof.
  unfold Jira.parseJqlToFilters.
  destruct (str_match true (Jira.clause "project") jql) as [pm | ] eqn:Ep;
    [destruct (str_match_clause_group _ _ _ Ep) as (pg & -> & Hpg) | ];
  (destruct (str_match true (Jira.clause "status") jql) as [sm | ] eqn:Es;
    [destruct (str_match_clause_group _ _ _ Es) as (sg & -> & Hsg) | ]);
  (destruct (str_match true (Jira.clause "assignee") jql) as [am | ] eqn:Ea;
    [destruct (str_match_clause_group _ _ _ Ea) as (ag & -> & Hag) | ]);
  cbn [bind]; eexists; (split; [reflexivity | ]);
  intros k v;
  rewrite ?lookup_insert_Some, lookup_empty;
  intuition (subst;
             first [ discriminate
                   | now apply strip_keeps_space_free
                   | now apply strip_keeps_space_free, strip_keeps_space_free
                   | now apply me_space_free, strip_keeps_space_free ]).
Qed.

(** The issue search of the repository's own examples: the status [To Do]
    is cut to [To]. *)
Example degrade_status_to_do :
  Jira.parseJqlToFilters ("project = DEMO AND status = " +:+ quoted "To Do")
  = Normal {[ "project" := "DEMO"; "status" := "To" ]}.
Proof. vm_compute. reflexivity. Qed.

(** ** Lists with an entry that cannot be normalized *)

Lemma map_from_fails f n items x :
  In x items -> (forall i, exists e, f i x = Throw e) ->
  exists e, map_from f n items = Throw e.
Proof.
  intros Hin Hx. revert n.
  induction items as [ | y tl IH]; intros n; [destruct Hin | ]. simpl.
  destruct (f n y) as [z | e] eqn:E; simpl; [ | eauto].
  destruct Hin as [-> | Hin].
  - destruct (Hx n) as [e He]. congruence.
  - destruct (IH Hin (S n)) as [e ->]. simpl. eauto.
Qed.

Lemma page_throws clock raw :
  nullish raw = true -> exists e, Confluence.normalizeCustomPage clock raw = Throw e.
Proof. destruct raw; try discriminate; intros _; eexists; reflexivity. Qed.

(** X16. Against the custom API one [null] or [undefined] entry among
    the children of a page loses them all: [getPageChildren] returns the
    empty list, not the children that could be normalized. *)
Theorem one_bad_child_empties_the_list config http clocks pageId data items x :
  Confluence.useCustomApi config = true ->
  http (mkCall "GET"
          (("/" +:+ Confluence.customApiVersion config) +:+ "/pages/" +:+ pageId
           +:+ "/children") ∅ JUndefined) = Normal data ->
  nullish data = false ->
  first_truthy data ["children"; "data"] (JArr []) = JArr items ->
  In x items -> nullish x = true ->
  ConfluenceOperations.getPageChildren config http clocks pageId
  = Normal (JArr []).
Proof.
  intros Hc Hh Hd He Hin Hx. cbn [first_truthy fold_right] in He.
  unfold ConfluenceOperations.getPageChildren, ConfluenceOperations.custom,
    ConfluenceOperations.version_prefix.
  rewrite Hc, Hh. cbn [bind]. eval_literal data. rewrite He.
  cbn [array_map].
  destruct (map_from_fails
              (fun i child => Confluence.normalizeCustomPage (clocks i) child)
              O items x Hin) as [e ->]; [ | reflexivity].
  intros i. now apply page_throws.
Qed.

Lemma one_bad_child_empties_the_list_witness :
  ConfluenceOperations.getPageChildren sample_config
    (fun _ => Normal (JObj [("children", JArr [JObj [("title", JStr "A")]; JNull])]))
    sample_clocks "123"
  = Normal (JArr []).
Proof.
  apply (one_bad_child_empties_the_list sample_config _ sample_clocks "123"
           (JObj [("children", JArr [JObj [("title", JStr "A")]; JNull])])
           [JObj [("title", JStr "A")]; JNull] JNull).
  - reflexivity.
  - reflexivity.
  - reflexivity.
  - reflexivity.
  - right. now left.
  - reflexivity.
Defined.

(** ** A space that is not listed *)

Lemma object_is_object fields r :
  object fields = Normal r -> exists props, r = JObj props.
Proof.
  unfold object. destruct (properties fields); simpl; [ | discriminate].
  intros [= <-]. eauto.
Qed.

Lemma find_from_none p items :
  (forall y, In y items -> p y = Normal false) ->
  find_from p items = Normal JUndefined.
Proof.
  induction items as [ | y tl IH]; intros H; simpl; [reflexivity | ].
  rewrite (H y (or_introl eq_refl)). simpl. apply IH.
  intros z Hz. apply H. now right.
Qed.

(** X17. Against the custom API [getSpace] raises [Space ... not found]
    whenever the upstream lists spaces of which none, once normalized,
    has the requested key as its [key] or as its [name]. *)
Theorem getSpace_raises_without_match config http spaceKey data items :
  Confluence.useCustomApi config = true ->
  http (Confluence.mkRequest "GET"
          ("/" +:+ Confluence.customApiVersion config +:+ "/spaces")
          [("limit", JNum (Confluence.maxResultsDefault config))])
    = Normal data ->
  nullish data = false ->
  first_truthy data ["spaces"; "data"] (JArr []) = JArr items ->
  Forall (fun raw =>
            exists r, Confluence.normalizeCustomSpace raw = Normal r /\
                      field r ["key"] <> JStr spaceKey /\
                      field r ["name"] <> JStr spaceKey) items ->
  Confluence.getSpace config http spaceKey
  = Throw (Error (("Failed to get space " +:+ spaceKey +:+ ": ")
                  +:+ ("Space " +:+ spaceKey +:+ " not found"))).
Proof.
  intros Hc Hh Hd He Hall. cbn [first_truthy fold_right] in He.
  rewrite List.Forall_forall in Hall.
  unfold Confluence.getSpace, Confluence.getSpaces.
  rewrite Hc, Hh. cbn [bind]. eval_literal data. rewrite He.
  cbn [array_map].
  destruct (map_from_returns
              (fun _ space => Confluence.normalizeCustomSpace space) O items)
    as (ys & Hys & _ & _).
  { intros i raw Hraw. destruct (Hall raw Hraw) as (r & Hr & _). eauto. }
  rewrite Hys. cbn [bind rethrow array_find].
  rewrite find_from_none; [reflexivity | ].
  intros y Hy.
  destruct (map_from_image _ _ _ _ _ Hys Hy) as (i & raw & Hraw & Hnorm).
  destruct (Hall raw Hraw) as (r & Hr & Hkey & Hname).
  rewrite Hnorm in Hr. injection Hr as <-.
  destruct (object_is_object _ _ Hnorm) as [props ->].
  unfold dot, val. cbn [bind get]. cbn [field prop get] in Hkey, Hname.
  destruct (strict_eq_string (lookup_prop "key" props) spaceKey) eqn:Ek.
  { apply strict_eq_string_true in Ek. contradiction. }
  destruct (strict_eq_string (lookup_prop "name" props) spaceKey) eqn:En.
  { apply strict_eq_string_true in En. contradiction. }
  reflexivity.
Qed.

Lemma getSpace_raises_without_match_witness :
  Confluence.getSpace sample_config spaces_answer "HR"
  = Throw (Error "Failed to get space HR: Space HR not found").
Proof.
  apply (getSpace_raises_without_match sample_config spaces_answer "HR"
           (JObj [("spaces", JArr [JObj [("id", JStr "OPS")];
                                   JObj [("title", JStr "DEV")]])])
           [JObj [("id", JStr "OPS")]; JObj [("title", JStr "DEV")]]).
  - reflexivity.
  - reflexivity.
  - reflexivity.
  - reflexivity.
  - repeat constructor;
      (eexists; split; [vm_compute; reflexivity | split; discriminate]).
Defined.


(** * The issue query degrader, clause by clause *)

(** ** The clause as a function on the characters of the query

    What the pattern of a clause finds, written without the matcher: the
    field name in any letter case, whitespace, [=], whitespace, and the
    run of characters up to the next whitespace. *)

Fixpoint after_word (w : string) (s : list ascii) : option (list ascii) :=
  match w with
  | EmptyString => Some s
  | String a w' =>
      match s with
      | c :: tl => if same_char true a c then after_word w' tl else None
      | [] => None
      end
  end.

Fixpoint skip_list (p : ascii -> bool) (s : list ascii) : list ascii :=
  match s with
  | c :: tl => if p c then skip_list p tl else s
  | [] => []
  end.

Fixpoint take_list (p : ascii -> bool) (s : list ascii) : list ascii :=
  match s with
  | c :: tl => if p c then c :: take_list p tl else []
  | [] => []
  end.

Definition not_space (c : ascii) : bool := negb (is_space c).

(** The value of the clause of [field] that starts exactly here. *)
Definition clause_here (field : string) (s : list ascii) : option (list ascii) :=
  match after_word field s with
  | Some s1 =>
      match skip_list is_space s1 with
      | c :: s3 =>
          if Ascii.eqb c "=" then
            match take_list not_space (skip_list is_space s3) with
            | [] => None
            | run => Some run
            end
          else None
      | [] => None
      end
  | None => None
  end.

(** The value of the leftmost clause of [field], wherever it starts: at
    the beginning of a word or inside one. *)
Fixpoint first_clause (field : string) (s : list ascii) : option (list ascii) :=
  match clause_here field s with
  | Some run => Some run
  | None =>
      match s with
      | [] => None
      | _ :: tl => first_clause field tl
      end
  end.

Definition clause_value (field jql : string) : option string :=
  string_of_list_ascii <$> first_clause field (list_ascii_of_string jql).

(** [s] without its single and double quotes. *)
Definition unquote (s : string) : string :=
  string_of_list_ascii
    (List.filter (fun c => negb (member [squote; dquote] c))
       (list_ascii_of_string s)).

(** ** The matcher on a clause *)

Fixpoint literal_state (i : bool) (w : string) (st : MState) : option MState :=
  match w with
  | EmptyString => Some st
  | String a w' =>
      match rest st with
      | c :: tl => if same_char i a c then literal_state i w' (advance st c tl)
                   else None
      | [] => None
      end
  end.

Lemma literal_eq i w st k :
  literal i w st k = match literal_state i w st with
                     | Some st' => k st'
                     | None => None
                     end.
Proof.
  revert st. induction w as [ | a w IH]; intros st; simpl; [reflexivity | ].
  unfold one. destruct (rest st) as [ | c tl]; [reflexivity | ].
  destruct (same_char i a c); [apply IH | reflexivity].
Qed.

Lemma literal_state_spec w st :
  match after_word w (rest st) with
  | Some r => exists pv, literal_state true w st = Some (mkMState pv r (caps st))
  | None => literal_state true w st = None
  end.
Proof.
  revert st. induction w as [ | a w IH]; intros st;
    cbn [after_word literal_state].
  - exists (prev st). now destruct st.
  - destruct (rest st) as [ | c tl] eqn:E; [reflexivity | ].
    destruct (same_char true a c); [ | reflexivity].
    apply (IH (advance st c tl)).
Qed.

(** The state after the longest run of characters that pass [p]. *)
Fixpoint skip_from (p : ascii -> bool) (pv : option ascii) (s : list ascii)
  (cs : list (nat * string)) : MState :=
  match s with
  | c :: tl => if p c then skip_from p (Some c) tl cs else mkMState pv s cs
  | [] => mkMState pv [] cs
  end.

Definition skip_state (p : ascii -> bool) (st : MState) : MState :=
  skip_from p (prev st) (rest st) (caps st).

Lemma skip_from_spec p pv s cs :
  exists pv', skip_from p pv s cs = mkMState pv' (skip_list p s) cs.
Proof.
  revert pv. induction s as [ | c tl IH]; intros pv; simpl; [eauto | ].
  destruct (p c); [apply IH | eauto].
Qed.

Definition starts_with (p : ascii -> bool) (st : MState) : Prop :=
  exists c tl, rest st = c :: tl /\ p c = true.

(** A greedy repetition of a one-character test takes the longest run,
    provided the continuation that fails after the longest run also
    fails after every shorter one. *)
Lemma star_takes_longest p step n st k :
  (forall st k, step st k = one p st k) ->
  (List.length (rest st) <= n)%nat ->
  (forall st', starts_with p st' -> k (skip_state p st') = None -> k st' = None) ->
  star_loop step n st k = k (skip_state p st).
Proof.
  intros Hstep Hn Hk. revert st Hn. induction n as [ | n IH]; intros st Hn.
  - destruct st as [pv [ | c tl] cs]; simpl in *; [reflexivity | lia].
  - simpl. rewrite Hstep. unfold one.
    destruct st as [pv [ | c tl] cs]; simpl in *; [reflexivity | ].
    unfold skip_state. simpl. destruct (p c) eqn:Hc; [ | reflexivity].
    unfold progress, advance. simpl.
    replace (List.length tl <? S (List.length tl))%nat with true
      by (symmetry; apply Nat.ltb_lt; lia).
    rewrite IH by (simpl; lia). unfold skip_state. simpl.
    destruct (k (skip_from p (Some c) tl cs)) eqn:E; [reflexivity | ].
    apply Hk.
    + now exists c, tl.
    + unfold skip_state. simpl. now rewrite Hc.
Qed.

Lemma take_skip p s : (take_list p s ++ skip_list p s)%list = s.
Proof.
  induction s as [ | c tl IH]; simpl; [reflexivity | ].
  destruct (p c); simpl; [now rewrite IH | reflexivity].
Qed.

Lemma space_is_not_equals c : is_space c = true -> same_char true "=" c = false.
Proof.
  destruct c as [[] [] [] [] [] [] [] []]; vm_compute; congruence.
Qed.

Lemma equals_only c : same_char true "=" c = Ascii.eqb c "=".
Proof. destruct c as [[] [] [] [] [] [] [] []]; reflexivity. Qed.

(** The matcher finds a clause at a position exactly where [clause_here]
    does, and its group 1 is the value [clause_here] gives. *)
Lemma match_at_clause_here f p s :
  match clause_here f s with
  | Some run =>
      exists m, match_at true (Jira.clause f) p s = Some m /\
                group 1 m = Some (string_of_list_ascii run)
  | None => match_at true (Jira.clause f) p s = None
  end.
Proof.
  unfold match_at, clause_here.
  cbn [Jira.clause seq rmatch Plus]. rewrite literal_eq.
  pose proof (literal_state_spec f (mkMState p s [])) as H1. cbn [rest caps] in H1.
  destruct (after_word f s) as [s1 | ]; [ | now rewrite H1].
  destruct H1 as [pv1 ->].
  rewrite (star_takes_longest is_space); [ | reflexivity | simpl; lia | ].
  2:{ intros st' (c & tl & Hr & Hc) _. rewrite literal_eq.
      cbn [literal_state]. rewrite Hr.
      now rewrite (space_is_not_equals c Hc). }
  unfold skip_state. cbn [prev rest caps].
  destruct (skip_from_spec is_space pv1 s1 []) as [pv2 ->].
  rewrite literal_eq. cbn [literal_state rest].
  destruct (skip_list is_space s1) as [ | c s3]; [reflexivity | ].
  rewrite equals_only. destruct (Ascii.eqb c "="); [ | reflexivity].
  rewrite (star_takes_longest is_space); [ | reflexivity | simpl; lia | ].
  2:{ intros st' (c' & tl & Hr & Hc) _. unfold one. rewrite Hr.
      now rewrite Hc. }
  unfold skip_state, advance. cbn [prev rest caps].
  destruct (skip_from_spec is_space (Some c) s3 []) as [pv4 ->].
  unfold one. cbn [rest].
  destruct (skip_list is_space s3) as [ | c' tl']; [reflexivity | ].
  cbn [take_list]. unfold not_space at 1.
  destruct (is_space c') eqn:Hc'; cbn [negb]; [reflexivity | ].
  rewrite (star_takes_longest not_space); [ | reflexivity | simpl; lia | ].
  2:{ intros st' _ H. discriminate H. }
  unfold skip_state, advance. cbn [prev rest caps].
  destruct (skip_from_spec not_space (Some c') tl' []) as [pv6 ->].
  cbn [fmap option_fmap option_map prev rest caps].
  eexists. split; [reflexivity | ].
  cbn [group List.find fst Nat.eqb fmap option_fmap option_map snd].
  f_equal. apply (consumed_run _ _ (c' :: take_list not_space tl')).
  cbn [rest]. simpl. now rewrite take_skip.
Qed.

Lemma search_first_clause f p s :
  match first_clause f s with
  | Some run =>
      exists m, search true (Jira.clause f) p s = Some m /\
                group 1 m = Some (string_of_list_ascii run)
  | None => search true (Jira.clause f) p s = None
  end.
Proof.
  revert p. induction s as [ | c tl IH]; intros p; cbn [first_clause search].
  - pose proof (match_at_clause_here f p []) as H.
    destruct (clause_here f []) as [run | ].
    + destruct H as (m & -> & Hg). now exists m.
    + now rewrite H.
  - pose proof (match_at_clause_here f p (c :: tl)) as H.
    destruct (clause_here f (c :: tl)) as [run | ].
    + destruct H as (m & -> & Hg). now exists m.
    + rewrite H. apply IH.
Qed.

Lemma str_match_clause_value f jql :
  match clause_value f jql with
  | Some v => exists m, str_match true (Jira.clause f) jql = Some m /\
                        group_string m 1 = Normal v
  | None => str_match true (Jira.clause f) jql = None
  end.
Proof.
  unfold clause_value, str_match.
  pose proof (search_first_clause f None (list_ascii_of_string jql)) as H.
  destruct (first_clause f (list_ascii_of_string jql)) as [run | ]; simpl.
  - destruct H as (m & Hm & Hg). exists m. split; [exact Hm | ].
    unfold group_string. now rewrite Hg.
  - exact H.
Qed.

Lemma strip_quotes_unquote s :
  replace_all false Jira.quotes [Text ""] s = unquote s.
Proof. unfold replace_all, unquote, Jira.quotes. now rewrite strip_class. Qed.

Lemma filter_absorbs (p q : ascii -> bool) l :
  (forall c, q c = true -> p c = true) ->
  List.filter p (List.filter q l) = List.filter q l.
Proof.
  intros H. induction l as [ | c tl IH]; simpl; [reflexivity | ].
  destruct (q c) eqn:E; simpl; [ | exact IH].
  now rewrite (H c E), IH.
Qed.

(** The second replacement of the status value finds nothing left to
    remove. *)
Lemma strip_again_unquote s :
  replace_all false (OneOf [dquote]) [Text ""] (unquote s) = unquote s.
Proof.
  unfold replace_all, unquote.
  rewrite strip_class, list_ascii_of_string_of_list_ascii.
  f_equal. apply filter_absorbs. intros c. unfold member. simpl.
  destruct (Ascii.eqb c squote), (Ascii.eqb c dquote); simpl; congruence.
Qed.

(** C5, as stated, fails in its general half: a clause of another field
    whose name ends in [project] is not discarded, a closing parenthesis
    stays in the value, and a quoted value of two words is cut after the
    first. *)
Lemma degrade_keeps_more_and_less :
  Jira.parseJqlToFilters "myproject = FOO" = Normal {[ "project" := "FOO" ]} /\
  Jira.parseJqlToFilters "(project = DEMO OR status = Open)"
    = Normal {[ "project" := "DEMO"; "status" := "Open)" ]} /\
  Jira.parseJqlToFilters ("project = " +:+ quoted "My Project")
    = Normal {[ "project" := "My" ]}.
Proof. repeat split; vm_compute; reflexivity. Qed.

(** C5, amended. Degrading [project = DEMO AND status = "Open"] yields
    exactly [{project: "DEMO", status: "Open"}].  On every query the
    degrader returns; [project] and [status] are set exactly when the
    query holds, anywhere, the field name in any letter case followed by
    optional whitespace, [=], optional whitespace and a character that is
    no whitespace, and the value is then the run of characters up to the
    next whitespace at the leftmost such place, without its single and
    double quotes.  [assignee] is set in the same cases and, unless the
    value is some spelling of [currentuser()], to the same value.  No
    other key is set. *)
Theorem degrade_takes_leftmost_clauses :
  Jira.parseJqlToFilters ("project = DEMO AND status = " +:+ quoted "Open")
    = Normal {[ "project" := "DEMO"; "status" := "Open" ]} /\
  forall jql, exists filters : gmap string string,
    Jira.parseJqlToFilters jql = Normal filters /\
    filters !! "project" = unquote <$> clause_value "project" jql /\
    filters !! "status" = unquote <$> clause_value "status" jql /\
    (clause_value "assignee" jql = None -> filters !! "assignee" = None) /\
    (forall v, clause_value "assignee" jql = Some v ->
               is_Some (filters !! "assignee") /\
               (toLowerCase (unquote v) <> "currentuser()" ->
                filters !! "assignee" = Some (unquote v))) /\
    dom filters ⊆ ({[ "project"; "status"; "assignee" ]} : gset string).
Proof.
  split; [vm_compute; reflexivity | ].
  intros jql.
  destruct (parseJqlToFilters_returns jql) as (filters & Hf & Hd & _).
  exists filters. split; [exact Hf | ]. revert Hf.
  unfold Jira.parseJqlToFilters.
  pose proof (str_match_clause_value "project" jql) as Hp.
  pose proof (str_match_clause_value "status" jql) as Hs.
  pose proof (str_match_clause_value "assignee" jql) as Ha.
  destruct (clause_value "project" jql) as [pv | ];
    [destruct Hp as (pm & -> & ->) | rewrite Hp];
  (destruct (clause_value "status" jql) as [sv | ];
    [destruct Hs as (sm & -> & ->) | rewrite Hs]);
  (destruct (clause_value "assignee" jql) as [av | ];
    [destruct Ha as (am & -> & ->) | rewrite Ha]);
  cbn [bind]; rewrite ?strip_quotes_unquote, ?strip_again_unquote;
  intros [= <-];
  (split; [now rewrite ?lookup_insert_ne, ?lookup_insert_eq by discriminate | ]);
  (split; [now rewrite ?lookup_insert_ne, ?lookup_insert_eq by discriminate | ]);
  (split; [intros Hn; first [discriminate Hn
           | now rewrite ?lookup_insert_ne by discriminate] | ]);
  (split; [ | exact Hd]);
  intros v Hv; (first [discriminate Hv | injection Hv as <-]);
  rewrite lookup_insert_eq; (split; [eauto | ]);
  intros Hl; destruct (String.eqb (unquote av) "currentuser()") eqn:E;
  try reflexivity;
  apply String.eqb_eq in E; rewrite E in Hl; exfalso; apply Hl;
  vm_compute; reflexivity.
Qed.

Lemma degrade_takes_leftmost_clauses_witness :
  clause_value "status" "Status=Done and (status = Open)" = Some "Done" /\
  exists filters : gmap string string,
    Jira.parseJqlToFilters "Status=Done and (status = Open)" = Normal filters /\
    filters !! "status" = Some "Done" /\
    filters !! "project" = None.
Proof.
  split; [reflexivity | ].
  destruct (proj2 degrade_takes_leftmost_clauses
              "Status=Done and (status = Open)")
    as (filters & Hf & Hp & Hs & _).
  exists filters. split; [exact Hf | split; [exact Hs | exact Hp]].
Defined.
